(** * basic-ecom-be: authorization gate, token service and product query engine

    A shallow embedding of the decision logic of the backend:
    - [Js]: the fragment of JavaScript value semantics the controllers rely on
      (string-to-number coercion, truthiness, number arithmetic);
    - [Admin]: the [isAdmin] middleware (middleware/admin.js);
    - [Products]: the [getProducts] controller (controllers/productController.js),
      over any store offering [find] and [countDocuments];
    - [Catalog]: the meaning of the filters and cursor options the controller
      emits, over a collection held as a list;
    - [TokenService]: issuing and verifying session tokens.

    Conventions.  Query-string values are sequences of ASCII characters.
    A JavaScript number is a binary64 value: [NaN], an infinity, the negative
    zero, or a finite value held as the rational it denotes; every arithmetic
    operation rounds its exact result to the nearest binary64 value, ties to
    even. *)

From Stdlib Require Import ZArith QArith Qround Qreduction Qcanon.
From Stdlib Require Import List String Ascii Bool Lia Sorted Permutation.
Import ListNotations.

Set Warnings "-register-all".

Local Open Scope string_scope.
Local Open Scope Z_scope.

(* ================================================================== *)
(** ** JavaScript values *)

Module Js.

(** A number: a binary64 value.  A finite value other than the negative zero
    is held as the rational it denotes, in lowest terms. *)
Inductive JsNum : Type :=
| JNaN
| JInf (negative : bool)
| JNegZero
| JFin (q : Q).

(** An integer literal. *)
Definition of_Z (z : Z) : JsNum := JFin (inject_Z z).

(** Whether the rational [q], in lowest terms, is a binary64 value: at most
    53 significant bits, an exponent of at least -1074, and a magnitude below
    2^1024. *)
Definition fits (q : Q) : bool :=
  let n := Z.abs (Qnum q) in
  let d := Z.pos (Qden q) in
  (Z.gcd n d =? 1)
  && if d =? 1
     then (n <? 2 ^ 1024) && (n mod 2 ^ Z.max 0 (Z.log2 n - 52) =? 0)
     else (d =? 2 ^ Z.log2 d) && (Z.log2 d <=? 1074) && (n <? 2 ^ 53).

Definition zero (negative : bool) : JsNum :=
  if negative then JNegZero else JFin 0.

(** The integer part of the binary logarithm of [n / d], for positive [n]
    and [d]. *)
Definition ilog2 (n d : Z) : Z :=
  let l := Z.log2 n - Z.log2 d in
  if (if 0 <=? l then d * 2 ^ l <=? n else d <=? n * 2 ^ (- l)) then l else l - 1.

(** The integer nearest to [n / d], ties to even, for positive [d]. *)
Definition nearest_integer (n d : Z) : Z :=
  let f := n / d in
  let r := n mod d in
  match 2 * r ?= d with
  | Lt => f
  | Gt => f + 1
  | Eq => if Z.even f then f else f + 1
  end.

(** [m * 2^e] in lowest terms. *)
Definition scale2 (m e : Z) : Q :=
  if 0 <=? e then inject_Z (m * 2 ^ e) else Qred (m # Z.to_pos (2 ^ (- e))).

(** Rounding of a nonzero [q] to the nearest binary64 value, ties to even:
    zero on underflow, an infinity on overflow. *)
Definition nearest (q : Q) : JsNum :=
  let negative := Qnum q <? 0 in
  let n := Z.abs (Qnum q) in
  let d := Z.pos (Qden q) in
  let e := Z.max (-1074) (ilog2 n d - 52) in
  let m := if 0 <=? e then nearest_integer n (d * 2 ^ e)
           else nearest_integer (n * 2 ^ (- e)) d in
  let r := scale2 (if negative then - m else m) e in
  if m =? 0 then zero negative
  else if fits r then JFin r else JInf negative.

(** The binary64 value of the real number [q]: itself when it is one, the
    nearest one otherwise.  [negative] is the sign an exact zero takes. *)
Definition round (negative : bool) (q : Q) : JsNum :=
  if Qnum q =? 0 then zero negative
  else if fits (Qred q) then JFin (Qred q) else nearest q.

(** The number holding a count. *)
Definition of_nat (n : nat) : JsNum := round false (inject_Z (Z.of_nat n)).

(** A number is well formed when its rational is a binary64 value. *)
Definition valid (x : JsNum) : Prop :=
  match x with
  | JFin q => fits q = true
  | _ => True
  end.

(** Sign and magnitude, for the arithmetic below. *)
Inductive shape : Type :=
| NaN_shape
| Inf_shape (negative : bool)
| Fin_shape (negative : bool) (q : Q).

Definition shape_of (x : JsNum) : shape :=
  match x with
  | JNaN => NaN_shape
  | JInf s => Inf_shape s
  | JNegZero => Fin_shape true 0
  | JFin q => Fin_shape (Qnum q <? 0) q
  end.

Definition is_zero (q : Q) : bool := Qnum q =? 0.

(** [a - b] *)
Definition sub (a b : JsNum) : JsNum :=
  match shape_of a, shape_of b with
  | NaN_shape, _ | _, NaN_shape => JNaN
  | Inf_shape s, Inf_shape t => if Bool.eqb s t then JNaN else JInf s
  | Inf_shape s, Fin_shape _ _ => JInf s
  | Fin_shape _ _, Inf_shape t => JInf (negb t)
  | Fin_shape s x, Fin_shape t y =>
      round (is_zero x && is_zero y && s && negb t) (x - y)
  end.

(** [a * b] *)
Definition mul (a b : JsNum) : JsNum :=
  match shape_of a, shape_of b with
  | NaN_shape, _ | _, NaN_shape => JNaN
  | Inf_shape s, Inf_shape t => JInf (xorb s t)
  | Inf_shape s, Fin_shape t y => if is_zero y then JNaN else JInf (xorb s t)
  | Fin_shape s x, Inf_shape t => if is_zero x then JNaN else JInf (xorb s t)
  | Fin_shape s x, Fin_shape t y => round (xorb s t) (x * y)
  end.

(** [a / b] *)
Definition div (a b : JsNum) : JsNum :=
  match shape_of a, shape_of b with
  | NaN_shape, _ | _, NaN_shape => JNaN
  | Inf_shape _, Inf_shape _ => JNaN
  | Inf_shape s, Fin_shape t _ => JInf (xorb s t)
  | Fin_shape s _, Inf_shape t => zero (xorb s t)
  | Fin_shape s x, Fin_shape t y =>
      if is_zero y then (if is_zero x then JNaN else JInf (xorb s t))
      else round (xorb s t) (x / y)
  end.

(** [Math.ceil(a)] *)
Definition ceil (a : JsNum) : JsNum :=
  match a with
  | JFin x =>
      if (Qceiling x =? 0) && (Qnum x <? 0) then JNegZero else of_Z (Qceiling x)
  | _ => a
  end.

(** [a <= b]; false when an operand is [NaN]. *)
Definition le (a b : JsNum) : bool :=
  match shape_of a, shape_of b with
  | NaN_shape, _ | _, NaN_shape => false
  | Inf_shape s, Inf_shape t => s || negb t
  | Inf_shape s, Fin_shape _ _ => s
  | Fin_shape _ _, Inf_shape t => negb t
  | Fin_shape _ x, Fin_shape _ y => Qle_bool x y
  end.

(** *** StringToNumber *)

Definition is_ws (c : ascii) : bool :=
  let n := N_of_ascii c in
  ((9 <=? n) && (n <=? 13) || (n =? 32))%N.

Fixpoint drop_ws (l : list ascii) : list ascii :=
  match l with
  | c :: t => if is_ws c then drop_ws t else l
  | [] => []
  end.

Definition trim (l : list ascii) : list ascii :=
  rev (drop_ws (rev (drop_ws l))).

(** Value of a digit in the given radix. *)
Definition digit (radix : Z) (c : ascii) : option Z :=
  let n := Z.of_N (N_of_ascii c) in
  let v := if (48 <=? n) && (n <=? 57) then Some (n - 48)
           else if (97 <=? n) && (n <=? 102) then Some (n - 87)
           else if (65 <=? n) && (n <=? 70) then Some (n - 55)
           else None in
  match v with
  | Some d => if d <? radix then Some d else None
  | None => None
  end.

(** Longest run of digits: accumulated value, number of digits read, rest. *)
Fixpoint digits (radix : Z) (l : list ascii) (acc : Z) (n : nat)
  : Z * nat * list ascii :=
  match l with
  | c :: t =>
      match digit radix c with
      | Some d => digits radix t (acc * radix + d) (S n)
      | None => (acc, n, l)
      end
  | [] => (acc, n, [])
  end.

(** The real number [m * 10^e]. *)
Definition scale10 (m e : Z) : Q :=
  if 0 <=? e then inject_Z (m * 10 ^ e)
  else m # Z.to_pos (10 ^ (- e)).

(** ExponentPart_opt followed by the end of the string. *)
Definition exponent (l : list ascii) : option Z :=
  match l with
  | [] => Some 0
  | c :: t =>
      if (Ascii.eqb c "e" || Ascii.eqb c "E")%bool then
        let '(neg, t) :=
          match t with
          | s :: u => if Ascii.eqb s "-" then (true, u)
                      else if Ascii.eqb s "+" then (false, u)
                      else (false, t)
          | [] => (false, t)
          end in
        match digits 10 t 0 0 with
        | (e, S _, []) => Some (if neg then - e else e)
        | _ => None
        end
      else None
  end.

(** StrUnsignedDecimalLiteral, without [Infinity]: the real number written. *)
Definition unsigned_decimal (l : list ascii) : option Q :=
  let '(ip, ni, r) := digits 10 l 0 0 in
  let '(m, nf, r) :=
    match r with
    | c :: t => if Ascii.eqb c "." then digits 10 t ip 0 else (ip, O, r)
    | [] => (ip, O, r)
    end in
  match (ni + nf)%nat with
  | O => None
  | S _ =>
      match exponent r with
      | Some e => Some (scale10 m (e - Z.of_nat nf))
      | None => None
      end
  end.

Definition str_infinity : list ascii := list_ascii_of_string "Infinity".

Definition list_ascii_eqb (a b : list ascii) : bool :=
  String.eqb (string_of_list_ascii a) (string_of_list_ascii b).

Definition unsigned_literal (neg : bool) (l : list ascii) : JsNum :=
  if list_ascii_eqb l str_infinity then JInf neg
  else match unsigned_decimal l with
       | Some q => round neg (if neg then - q else q)
       | None => JNaN
       end.

Definition radix_literal (radix : Z) (l : list ascii) : JsNum :=
  match digits radix l 0 0 with
  | (v, S _, []) => round false (inject_Z v)
  | _ => JNaN
  end.

Definition StringToNumber (s : string) : JsNum :=
  match trim (list_ascii_of_string s) with
  | [] => of_Z 0
  | c :: t =>
      let prefixed :=
        match t with
        | p :: u =>
            if Ascii.eqb c "0" then
              if (Ascii.eqb p "x" || Ascii.eqb p "X")%bool then Some (16, u)
              else if (Ascii.eqb p "o" || Ascii.eqb p "O")%bool then Some (8, u)
              else if (Ascii.eqb p "b" || Ascii.eqb p "B")%bool then Some (2, u)
              else None
            else None
        | [] => None
        end in
      match prefixed with
      | Some (radix, u) => radix_literal radix u
      | None =>
          if Ascii.eqb c "-" then unsigned_literal true t
          else if Ascii.eqb c "+" then unsigned_literal false t
          else unsigned_literal false (c :: t)
      end
  end.

(** The values a destructured query parameter can hold: the numeric default
    or the string sent by the client. *)
Inductive JsVal : Type :=
| VNum (n : JsNum)
| VStr (s : string).

Definition ToNumber (v : JsVal) : JsNum :=
  match v with
  | VNum n => n
  | VStr s => StringToNumber s
  end.

(** [const { x = d } = obj]: the default applies when [x] is [undefined]. *)
Definition or_default (d : JsVal) (x : option string) : JsVal :=
  match x with
  | Some s => VStr s
  | None => d
  end.

(** Truthiness of a possibly undefined string: [undefined] and the empty
    string are falsy. *)
Definition truthy (x : option string) : bool :=
  match x with
  | Some s => negb (String.eqb s "")
  | None => false
  end.

(** [x === lit] for a possibly undefined [x]. *)
Definition strict_eq (x : option string) (lit : string) : bool :=
  match x with
  | Some s => String.eqb s lit
  | None => false
  end.

End Js.

(* ================================================================== *)
(** ** The authorization gate: middleware/admin.js *)

Module Admin.

(** A document of the [User] model (models/User.js). *)
Record user : Type := {
  _id : string;
  name : string;
  email : string;
  password : string;
  role : string;
  isActive : bool
}.

(** [req.user]: the token payload the authentication middleware attached. *)
Record subject : Type := {
  userId : option string;
  iat : Z;
  exp : Z
}.

Record request : Type := {
  req_user : option subject;
  currentUser : option user
}.

(** What [await User.findById(id)] can do: resolve to a document, resolve to
    [null], or throw. *)
Inductive lookup : Type :=
| Found (u : user)
| Null
| Thrown (error : string).

Record body : Type := { success : bool; message : string }.

(** Effects of the gate visible outside it. *)
Inductive event : Type :=
| FindById (id : string)
| LogError (label : string) (error : string).

Inductive outcome : Type :=
| Respond (status : Z) (b : body)
| Next (req : request).

(** The body [{ success: false, message }] of every refusal. *)
Definition refusal (m : string) : body := {| success := false; message := m |}.

Definition isAdmin (findById : string -> lookup) (req : request)
  : list event * outcome :=
  match req_user req with
  | None => ([], Respond 401 (refusal "Authentication required"))
  | Some sub =>
      if negb (Js.truthy (userId sub)) then
        ([], Respond 401 (refusal "Authentication required"))
      else
        let id := match userId sub with Some id => id | None => "" end in
        match findById id with
        | Thrown error =>
            ([FindById id; LogError "Admin middleware error:" error],
             Respond 500 (refusal "Server error during authorization"))
        | Null =>
            ([FindById id], Respond 404 (refusal "User not found"))
        | Found user =>
            if negb (String.eqb (role user) "admin") then
              ([FindById id],
               Respond 403 (refusal "Access denied: Admin privileges required"))
            else
              ([FindById id],
               Next {| req_user := req_user req; currentUser := Some user |})
        end
  end.

(** A Subject is present when [req.user] and [req.user.userId] are truthy. *)
Definition subject_of (req : request) : option string :=
  match req_user req with
  | Some sub => if Js.truthy (userId sub) then userId sub else None
  | None => None
  end.

End Admin.

(* ================================================================== *)
(** ** The product listing: controllers/productController.js *)

(** A document of the [Product] model (models/Product.js); [createdAt] comes
    from [timestamps: true]. *)
Module Product.
Record t : Type := {
  name : string;
  description : string;
  price : Q;
  stock : Q;
  category : string;
  brand : option string;
  sizes : list string;
  colors : list string;
  sku : option string;
  imageUrl : string;
  isActive : bool;
  createdAt : Z
}.
End Product.

(** [req.query], restricted to the parameters [getProducts] destructures.
    Each one is [undefined] or the string sent by the client. *)
Module ReqQuery.
Record t : Type := {
  page : option string;
  limit : option string;
  category : option string;
  brand : option string;
  search : option string;
  sort : option string;
  minPrice : option string;
  maxPrice : option string
}.

Definition empty : t :=
  {| page := None; limit := None; category := None; brand := None;
     search := None; sort := None; minPrice := None; maxPrice := None |}.

(** The same request with one parameter replaced. *)
Definition with_category (v : option string) (rq : t) : t :=
  {| page := page rq; limit := limit rq; category := v; brand := brand rq;
     search := search rq; sort := sort rq; minPrice := minPrice rq;
     maxPrice := maxPrice rq |}.
Definition with_brand (v : option string) (rq : t) : t :=
  {| page := page rq; limit := limit rq; category := category rq; brand := v;
     search := search rq; sort := sort rq; minPrice := minPrice rq;
     maxPrice := maxPrice rq |}.
Definition with_search (v : option string) (rq : t) : t :=
  {| page := page rq; limit := limit rq; category := category rq; brand := brand rq;
     search := v; sort := sort rq; minPrice := minPrice rq;
     maxPrice := maxPrice rq |}.
Definition with_sort (v : option string) (rq : t) : t :=
  {| page := page rq; limit := limit rq; category := category rq; brand := brand rq;
     search := search rq; sort := v; minPrice := minPrice rq;
     maxPrice := maxPrice rq |}.
Definition with_minPrice (v : option string) (rq : t) : t :=
  {| page := page rq; limit := limit rq; category := category rq; brand := brand rq;
     search := search rq; sort := sort rq; minPrice := v;
     maxPrice := maxPrice rq |}.
Definition with_maxPrice (v : option string) (rq : t) : t :=
  {| page := page rq; limit := limit rq; category := category rq; brand := brand rq;
     search := search rq; sort := sort rq; minPrice := minPrice rq;
     maxPrice := v |}.
End ReqQuery.

(** The filter object [query] handed to [Product.find] and
    [Product.countDocuments]. *)
Module Filter.
Record regex : Type := { pattern : string; options : string }.
Record range : Type := { gte : option Js.JsNum; lte : option Js.JsNum }.
Record t : Type := {
  isActive : bool;
  category : option string;
  brand : option regex;
  price : option range;
  text : option string
}.

Definition set_category (c : string) (q : t) : t :=
  {| isActive := isActive q; category := Some c; brand := brand q;
     price := price q; text := text q |}.
Definition set_brand (r : regex) (q : t) : t :=
  {| isActive := isActive q; category := category q; brand := Some r;
     price := price q; text := text q |}.
Definition set_price (r : range) (q : t) : t :=
  {| isActive := isActive q; category := category q; brand := brand q;
     price := Some r; text := text q |}.
Definition set_text (s : string) (q : t) : t :=
  {| isActive := isActive q; category := category q; brand := brand q;
     price := price q; text := Some s |}.

(** The [$gte] and [$lte] bounds of the price clause, when set. *)
Definition lower (q : t) : option Js.JsNum :=
  match price q with Some r => gte r | None => None end.
Definition upper (q : t) : option Js.JsNum :=
  match price q with Some r => lte r | None => None end.
End Filter.

Module Products.
Import Js.

Inductive sort_field : Type := createdAt | price | name.

(** A sort specification [{ field: direction }] with direction [1] or [-1]. *)
Definition sort_option : Type := (sort_field * Z)%type.

Definition str (x : option string) : string :=
  match x with Some s => s | None => "" end.

(** What a parameter guarded by [if (x)] contributes: a clause when it is
    truthy, nothing otherwise. *)
Definition clause {A : Type} (x : option string) (f : string -> A) : option A :=
  if truthy x then Some (f (str x)) else None.

(** Lines 83-97: the filter built from the request. *)
Definition build_query (rq : ReqQuery.t) : Filter.t :=
  let query :=
    {| Filter.isActive := true; Filter.category := None; Filter.brand := None;
       Filter.price := None; Filter.text := None |} in
  let query :=
    if truthy (ReqQuery.category rq)
    then Filter.set_category (str (ReqQuery.category rq)) query else query in
  let query :=
    if truthy (ReqQuery.brand rq)
    then Filter.set_brand
           {| Filter.pattern := str (ReqQuery.brand rq); Filter.options := "i" |}
           query
    else query in
  let query :=
    if truthy (ReqQuery.minPrice rq) || truthy (ReqQuery.maxPrice rq) then
      let price := {| Filter.gte := None; Filter.lte := None |} in
      let price :=
        if truthy (ReqQuery.minPrice rq)
        then {| Filter.gte := Some (StringToNumber (str (ReqQuery.minPrice rq)));
                Filter.lte := Filter.lte price |}
        else price in
      let price :=
        if truthy (ReqQuery.maxPrice rq)
        then {| Filter.gte := Filter.gte price;
                Filter.lte := Some (StringToNumber (str (ReqQuery.maxPrice rq))) |}
        else price in
      Filter.set_price price query
    else query in
  if truthy (ReqQuery.search rq)
  then Filter.set_text (str (ReqQuery.search rq)) query else query.

(** Lines 100-104: the sort specification. *)
Definition sortOption (sort : option string) : sort_option :=
  let sortOption := (createdAt, -1) in
  let sortOption := if strict_eq sort "price_asc" then (price, 1) else sortOption in
  let sortOption := if strict_eq sort "price_desc" then (price, -1) else sortOption in
  let sortOption := if strict_eq sort "name_asc" then (name, 1) else sortOption in
  let sortOption := if strict_eq sort "name_desc" then (name, -1) else sortOption in
  sortOption.

(** The destructured [page] and [limit] with their defaults. *)
Definition page (rq : ReqQuery.t) : JsVal := or_default (VNum (of_Z 1)) (ReqQuery.page rq).
Definition limit (rq : ReqQuery.t) : JsVal := or_default (VNum (of_Z 10)) (ReqQuery.limit rq).

(** The arguments of [.limit(limit * 1)] and [.skip((page - 1) * limit)]. *)
Definition limit_arg (rq : ReqQuery.t) : JsNum :=
  mul (ToNumber (limit rq)) (of_Z 1).
Definition skip_arg (rq : ReqQuery.t) : JsNum :=
  mul (sub (ToNumber (page rq)) (of_Z 1)) (ToNumber (limit rq)).

(** An awaited store call resolves or throws. *)
Inductive store_result (A : Type) : Type :=
| Resolved (a : A)
| Rejected.
Arguments Resolved {A} a.
Arguments Rejected {A}.

(** The two store operations the controller awaits:
    [Product.find(query).sort(s).limit(l).skip(k)] and
    [Product.countDocuments(query)]. *)
Record Store : Type := {
  find : Filter.t -> sort_option -> JsNum -> JsNum -> store_result (list Product.t);
  countDocuments : Filter.t -> store_result nat
}.

Record pagination : Type := { total : nat; page_no : JsNum; pages : JsNum }.

Inductive response : Type :=
| Listing (data : list Product.t) (p : pagination)   (* res.json: status 200, success: true *)
| Failure (status : Z) (message : string).           (* success: false *)

(** Lines 70-129.  Either awaited call may throw, and so may the cursor
    builders; the [catch] block answers 500 (its [logger.error] call is not
    represented). *)
Definition getProducts (S : Store) (rq : ReqQuery.t) : response :=
  let query := build_query rq in
  let sortOption := sortOption (ReqQuery.sort rq) in
  match find S query sortOption (limit_arg rq) (skip_arg rq) with
  | Rejected => Failure 500 "Server error"
  | Resolved products =>
      match countDocuments S query with
      | Rejected => Failure 500 "Server error"
      | Resolved count =>
          Listing products
            {| total := count;
               page_no := ToNumber (page rq);
               pages := ceil (div (of_nat count) (ToNumber (limit rq))) |}
      end
  end.

End Products.

(* ================================================================== *)
(** ** The catalog store

    The controller only builds a filter and cursor options; what they select
    is decided by the database.  This module fixes the documented MongoDB
    meaning of the operators [getProducts] emits, over a collection held as a
    list of documents.  The text search and the regular-expression engine
    are those of the database and are parameters.  A price is the rational
    its stored binary64 value denotes. *)

Module Catalog.
Import Js Products.

(** *** Filters *)

(** A filter the store accepts, with the brand pattern compiled. *)
Record plan : Type := {
  active : bool;
  in_category : option string;
  brand_like : option (string -> bool);
  at_least : option JsNum;
  at_most : option JsNum;
  text_query : option string
}.

(** Casting a price bound: [NaN] is refused (Mongoose's number cast), and the
    query is rejected. *)
Definition plan_bound (b : option JsNum) : option (option JsNum) :=
  match b with
  | Some JNaN => None
  | _ => Some b
  end.

Definition holds {A : Type} (c : option A) (test : A -> bool) : bool :=
  match c with
  | Some a => test a
  | None => true
  end.

(** [productSchema.index({ name: 'text', description: 'text', brand: 'text' })] *)
Definition indexed_fields (p : Product.t) : list string :=
  Product.name p :: Product.description p ::
  match Product.brand p with Some b => [b] | None => [] end.

(** *** Ordering

    Records are sorted on one field, ascending for direction [1] and
    descending for [-1]; strings compare by character code. *)

Definition key_compare (f : sort_field) (a b : Product.t) : comparison :=
  match f with
  | createdAt => Z.compare (Product.createdAt a) (Product.createdAt b)
  | price => Qcompare (Product.price a) (Product.price b)
  | name => String.compare (Product.name a) (Product.name b)
  end.

Definition in_order (so : sort_option) (a b : Product.t) : bool :=
  match key_compare (fst so) a b with
  | Eq => true
  | Lt => 0 <? snd so
  | Gt => snd so <? 0
  end.

(** A sort specification with direction [1] or [-1]. *)
Definition direction (so : sort_option) : Prop := snd so = 1 \/ snd so = -1.

(** [sorted] is the selection [sel] arranged by [so].  Records with equal
    keys may come in any order: the database promises none. *)
Definition arranged (so : sort_option) (sel sorted : list Product.t) : Prop :=
  Permutation sorted sel
  /\ Sorted (fun a b => in_order so a b = true) sorted.

(** One arrangement: insertion sort, which keeps records with equal keys in
    the order of the collection. *)
Fixpoint insert (so : sort_option) (x : Product.t) (l : list Product.t) : list Product.t :=
  match l with
  | [] => [x]
  | y :: t => if in_order so x y then x :: l else y :: insert so x t
  end.

Definition order (so : sort_option) (l : list Product.t) : list Product.t :=
  fold_right (insert so) [] l.

(** *** Cursors *)

(** A cursor option that is a non-negative integer in the range of a 64-bit
    integer. *)
Definition as_count (n : JsNum) : option nat :=
  match n with
  | JFin q =>
      if (Z.pos (Qden q) =? 1) && (0 <=? Qnum q) && (Qnum q <? 2 ^ 63)
      then Some (Z.to_nat (Qnum q))
      else None
  | JNegZero => Some O
  | _ => None
  end.

(** [limit(0)] is equivalent to setting no limit. *)
Definition take (l : nat) (xs : list Product.t) : list Product.t :=
  match l with
  | O => xs
  | S _ => firstn l xs
  end.

Definition settle {A : Type} (r : option A) : store_result A :=
  match r with
  | Some a => Resolved a
  | None => Rejected
  end.

(** *** A parameter free of regular-expression operators *)

Definition metachars : list ascii := list_ascii_of_string "\^$.|?*+()[]{}".

Definition is_meta (c : ascii) : bool := existsb (Ascii.eqb c) metachars.

Definition plain (s : string) : bool :=
  forallb (fun c => negb (is_meta c)) (list_ascii_of_string s).

(** ASCII case folding. *)
Definition fold_case (c : ascii) : ascii :=
  let n := N_of_ascii c in
  if ((65 <=? n) && (n <=? 90))%N then ascii_of_N (n + 32) else c.

Definition lower_case (s : string) : list ascii :=
  map fold_case (list_ascii_of_string s).

(** [b] occurs in [s] as a substring, up to ASCII case. *)
Definition occurs_ci (b s : string) : Prop :=
  exists u v, lower_case s = (u ++ lower_case b ++ v)%list.

Section Store.

(** The text search of the storage layer: whether a [$search] string matches
    a document, given the contents of its indexed fields.  Tokenisation,
    stemming and scoring belong to the database and are left abstract. *)
Variable text_search : string -> list string -> bool.

(** The regular-expression engine of the storage layer: the test a pattern
    and its options compile to, or [None] when the pattern does not compile,
    in which case the store rejects the query. *)
Variable regex : Filter.regex -> option (string -> bool).

Definition plan_regex (re : option Filter.regex) : option (option (string -> bool)) :=
  match re with
  | None => Some None
  | Some re => option_map Some (regex re)
  end.

Definition plan_of (q : Filter.t) : option plan :=
  match plan_regex (Filter.brand q),
        plan_bound (Filter.lower q), plan_bound (Filter.upper q) with
  | Some re, Some lo, Some hi =>
      Some {| active := Filter.isActive q;
              in_category := Filter.category q;
              brand_like := re;
              at_least := lo;
              at_most := hi;
              text_query := Filter.text q |}
  | _, _, _ => None
  end.

(** All clauses of a filter are combined conjunctively.  A record without a
    brand matches no brand pattern. *)
Definition accepts (pl : plan) (p : Product.t) : bool :=
  Bool.eqb (Product.isActive p) (active pl)
  && holds (in_category pl) (String.eqb (Product.category p))
  && holds (brand_like pl)
       (fun test => match Product.brand p with
                    | Some b => test b
                    | None => false
                    end)
  && holds (at_least pl) (fun lo => le lo (JFin (Product.price p)))
  && holds (at_most pl) (fun hi => le (JFin (Product.price p)) hi)
  && holds (text_query pl) (fun s => text_search s (indexed_fields p)).

(** Whether the filter accepts a record; [None] when the store rejects the
    filter. *)
Definition matches (q : Filter.t) (p : Product.t) : option bool :=
  option_map (fun pl => accepts pl p) (plan_of q).

(** The records of the collection a filter selects, in the order of the
    collection. *)
Definition select (db : list Product.t) (q : Filter.t) : option (list Product.t) :=
  option_map (fun pl => filter (accepts pl) db) (plan_of q).

(** A store serves the collection [db] when, for a filter it accepts, a sort
    direction of [1] or [-1] and a limit and skip that are such integers,
    [find] resolves to the
    selected records in some arrangement by the sort specification, the
    first [skip] dropped and at most [limit] kept, and [countDocuments]
    resolves to the number of selected records.  The arrangement of records
    with equal keys may change from one call to the next. *)
Definition serves (db : list Product.t) (S : Store) : Prop :=
  (forall q so l k sel nl nk,
      direction so ->
      select db q = Some sel -> as_count l = Some nl -> as_count k = Some nk ->
      exists sorted,
        arranged so sel sorted
        /\ Products.find S q so l k = Resolved (take nl (skipn nk sorted)))
  /\ (forall q sel,
        select db q = Some sel ->
        Products.countDocuments S q = Resolved (List.length sel)).

(** A serving store is steady when it arranges the records a filter selects
    the same way on every call. *)
Definition steady (db : list Product.t) (S : Store) : Prop :=
  forall q so sel,
    direction so ->
    select db q = Some sel ->
    exists sorted,
      arranged so sel sorted
      /\ forall l k nl nk,
           as_count l = Some nl -> as_count k = Some nk ->
           Products.find S q so l k = Resolved (take nl (skipn nk sorted)).

(** One store serving [db]: it arranges with [order], and rejects what is
    outside the description above. *)
Definition find (db : list Product.t) (q : Filter.t) (so : sort_option)
    (limit skip : JsNum) : option (list Product.t) :=
  match select db q, as_count limit, as_count skip with
  | Some sel, Some l, Some k => Some (take l (skipn k (order so sel)))
  | _, _, _ => None
  end.

Definition countDocuments (db : list Product.t) (q : Filter.t) : option nat :=
  option_map (@List.length _) (select db q).

Definition store (db : list Product.t) : Store :=
  {| Products.find := fun q so l k => settle (find db q so l k);
     Products.countDocuments := fun q => settle (countDocuments db q) |}.

(** *** The listing predicate in the words of the specification *)

(** The brand of a record matches the pattern [b], case-insensitively. *)
Definition brand_matches (b pb : string) : Prop :=
  exists test,
    regex {| Filter.pattern := b; Filter.options := "i" |} = Some test
    /\ test pb = true.

(** Active, and every filter that was provided holds: exact category,
    brand as given by [brand_test], inclusive price bounds, text search over
    the indexed fields. *)
Definition eligible (brand_test : string -> string -> Prop)
    (rq : ReqQuery.t) (p : Product.t) : Prop :=
  Product.isActive p = true
  /\ (forall c, ReqQuery.category rq = Some c -> c <> "" ->
        Product.category p = c)
  /\ (forall b, ReqQuery.brand rq = Some b -> b <> "" ->
        exists pb, Product.brand p = Some pb /\ brand_test b pb)
  /\ (forall s, ReqQuery.minPrice rq = Some s -> s <> "" ->
        le (StringToNumber s) (JFin (Product.price p)) = true)
  /\ (forall s, ReqQuery.maxPrice rq = Some s -> s <> "" ->
        le (JFin (Product.price p)) (StringToNumber s) = true)
  /\ (forall s, ReqQuery.search rq = Some s -> s <> "" ->
        text_search s (indexed_fields p) = true).

(** The engine reads a pattern without operators as a case-insensitive
    substring test. *)
Definition literal_patterns : Prop :=
  forall b, plain b = true ->
    exists test,
      regex {| Filter.pattern := b; Filter.options := "i" |} = Some test
      /\ forall s, test s = true <-> occurs_ci b s.

End Store.

(** A storage layer without text search results, for examples that do not
    use [search]. *)
Definition no_text : string -> list string -> bool := fun _ _ => false.

(** *** A small regular-expression engine, for examples

    It compiles the patterns made of ordinary characters and [.], with the
    option [i], and no others. *)

Inductive atom : Type :=
| Lit (c : ascii)
| Dot.

Fixpoint parse_pattern (l : list ascii) : option (list atom) :=
  match l with
  | [] => Some []
  | c :: t =>
      match parse_pattern t with
      | Some r =>
          if Ascii.eqb c "." then Some (Dot :: r)
          else if is_meta c then None
          else Some (Lit c :: r)
      | None => None
      end
  end.

Definition atom_matches (a : atom) (c : ascii) : bool :=
  match a with
  | Lit x => Ascii.eqb (fold_case x) (fold_case c)
  | Dot => negb (Ascii.eqb c "010")
  end.

Fixpoint match_here (r : list atom) (s : list ascii) : bool :=
  match r, s with
  | [], _ => true
  | a :: r', c :: s' => atom_matches a c && match_here r' s'
  | _ :: _, [] => false
  end.

(** An unanchored pattern matches when it matches at some position. *)
Fixpoint match_anywhere (r : list atom) (s : list ascii) : bool :=
  match_here r s ||
  match s with
  | [] => false
  | _ :: s' => match_anywhere r s'
  end.

Definition dots (re : Filter.regex) : option (string -> bool) :=
  if String.eqb (Filter.options re) "i" then
    option_map (fun r s => match_anywhere r (list_ascii_of_string s))
      (parse_pattern (list_ascii_of_string (Filter.pattern re)))
  else None.

(** The sample store: no text search, the small engine. *)
Definition sample (db : list Product.t) : Store := store no_text dots db.

End Catalog.

(* ================================================================== *)
(** ** The token service *)

Module TokenService.

(** The identity a verified token resolves to. *)
Record Subject : Type := {
  userId : string;
  issuedAt : Z;
  expiresAt : Z
}.

Inductive AuthError : Type := InvalidSignature | Expired | Malformed.

(** A received token either parses into claims and a signature or does not. *)
Inductive token : Type :=
| Signed (claims : Subject) (signature : string)
| Unparsed (raw : string).

(** [expiresIn: '1d'], in seconds. *)
Definition one_day : Z := 86400.

Section Signing.

(** The signature primitive, keyed by the process-wide secret. *)
Variable sign : string -> Subject -> string.

(** Modelled from the spec: [issue] of the Token Service; the login controller
    that issues tokens is not among the sources, only the call
    [jwt.sign({ userId }, secret, { expiresIn: '1d' })] of the verification
    script is.  The token embeds [userId] and expires one day after [now]. *)
Definition issue (secret : string) (now : Z) (u : string) : token :=
  let claims := {| userId := u; issuedAt := now; expiresAt := now + one_day |} in
  Signed claims (sign secret claims).

(** Modelled from the spec: [verify] of the Token Service; the authentication
    middleware that verifies tokens is not among the sources.  Fails with
    [Malformed] when the token does not parse, [InvalidSignature] when the
    signature does not match, [Expired] when the current time has reached the
    embedded expiry. *)
Definition verify (secret : string) (now : Z) (t : token) : Subject + AuthError :=
  match t with
  | Unparsed _ => inr Malformed
  | Signed claims signature =>
      if negb (String.eqb signature (sign secret claims)) then inr InvalidSignature
      else if expiresAt claims <=? now then inr Expired
      else inl claims
  end.

End Signing.

(** A toy signature used in examples. *)
Definition tag_sign (secret : string) (c : Subject) : string :=
  secret ++ ":" ++ userId c.

End TokenService.

(* ================================================================== *)
(** ** Sample data *)

Module Samples.
Import Js.

Definition alice : Admin.user :=
  {| Admin._id := "u1"; Admin.name := "Alice"; Admin.email := "alice@example.com";
     Admin.password := "$2a$10$hash"; Admin.role := "admin"; Admin.isActive := true |}.

Definition bob : Admin.user :=
  {| Admin._id := "u2"; Admin.name := "Bob"; Admin.email := "bob@example.com";
     Admin.password := "$2a$10$hash"; Admin.role := "user"; Admin.isActive := true |}.

(** A credential store holding [alice] and [bob]; looking up ["boom"] throws. *)
Definition users (id : string) : Admin.lookup :=
  if String.eqb id "u1" then Admin.Found alice
  else if String.eqb id "u2" then Admin.Found bob
  else if String.eqb id "boom" then Admin.Thrown "MongoNetworkError: connection refused"
  else Admin.Null.

Definition request_of (id : string) : Admin.request :=
  {| Admin.req_user := Some {| Admin.userId := Some id; Admin.iat := 1000; Admin.exp := 87400 |};
     Admin.currentUser := None |}.

Definition anonymous : Admin.request :=
  {| Admin.req_user := None; Admin.currentUser := None |}.

Definition item (n : string) (b : option string) (c : string) (p : Q) (a : bool) (t : Z)
  : Product.t :=
  {| Product.name := n; Product.description := n; Product.price := p;
     Product.stock := 1; Product.category := c; Product.brand := b;
     Product.sizes := []; Product.colors := []; Product.sku := None;
     Product.imageUrl := "https://via.placeholder.com/150";
     Product.isActive := a; Product.createdAt := t |}.

Definition shirt : Product.t := item "Shirt" (Some "abc") "Men" 20 true 1.
Definition scarf : Product.t := item "Scarf" (Some "Acme") "Women" 15 true 2.
Definition socks : Product.t := item "Socks" None "Kids" 5 true 3.
Definition retired : Product.t := item "Retired" (Some "Acme") "Men" 9 false 4.

Definition catalog : list Product.t := [shirt; scarf; socks; retired].

Definition with_limit (s : string) : ReqQuery.t :=
  {| ReqQuery.page := None; ReqQuery.limit := Some s; ReqQuery.category := None;
     ReqQuery.brand := None; ReqQuery.search := None; ReqQuery.sort := None;
     ReqQuery.minPrice := None; ReqQuery.maxPrice := None |}.

Definition with_brand (s : string) : ReqQuery.t :=
  {| ReqQuery.page := None; ReqQuery.limit := None; ReqQuery.category := None;
     ReqQuery.brand := Some s; ReqQuery.search := None; ReqQuery.sort := None;
     ReqQuery.minPrice := None; ReqQuery.maxPrice := None |}.

Definition with_minPrice (s : string) : ReqQuery.t :=
  {| ReqQuery.page := None; ReqQuery.limit := None; ReqQuery.category := None;
     ReqQuery.brand := None; ReqQuery.search := None; ReqQuery.sort := None;
     ReqQuery.minPrice := Some s; ReqQuery.maxPrice := None |}.

(** A store whose calls always resolve, to [socks] alone. *)
Definition resolving : Products.Store :=
  {| Products.find := fun _ _ _ _ => Products.Resolved [socks];
     Products.countDocuments := fun _ => Products.Resolved 1%nat |}.

Definition paged (p l : string) : ReqQuery.t :=
  {| ReqQuery.page := Some p; ReqQuery.limit := Some l; ReqQuery.category := None;
     ReqQuery.brand := None; ReqQuery.search := None; ReqQuery.sort := Some "price_asc";
     ReqQuery.minPrice := None; ReqQuery.maxPrice := None |}.

End Samples.

(* ================================================================== *)
(** ** Request bodies *)

(** A parsed JSON value; [req.body] is an object, held as its members in
    order, with distinct keys. *)
Module Json.

Inductive t : Type :=
| Null
| Bool (b : bool)
| Num (n : Js.JsNum)
| Str (s : string)
| Arr (items : list t)
| Obj (members : list (string * t)).

Definition object : Type := list (string * t).

Fixpoint get (o : object) (k : string) : option t :=
  match o with
  | [] => None
  | (k', v) :: rest => if String.eqb k k' then Some v else get rest k
  end.

End Json.

(* ================================================================== *)
(** ** The validation schemas of controllers/productController.js *)

Module Joi.

Inductive base : Type := string_type | number_type | array_type | boolean_type.

Inductive presence : Type := Optional | Required.

(** A schema built by [Joi.string()], [Joi.number()], ... and the rules
    chained on it, in order. *)
Inductive schema : Type :=
| Schema (ty : base) (rs : list rule) (p : presence)
with rule : Type :=
| Max (n : Z)
| Min (n : Z)
| Valid (values : list string)
| Allow (values : list string)
| Uri
| Items (s : schema).

Definition string_ : schema := Schema string_type [] Optional.
Definition number_ : schema := Schema number_type [] Optional.
Definition array_ : schema := Schema array_type [] Optional.
Definition boolean_ : schema := Schema boolean_type [] Optional.

Definition chain (r : rule) (s : schema) : schema :=
  match s with Schema ty rs p => Schema ty (rs ++ [r]) p end.

Definition max (n : Z) : schema -> schema := chain (Max n).
Definition min (n : Z) : schema -> schema := chain (Min n).
Definition valid (vs : list string) : schema -> schema := chain (Valid vs).
Definition allow (vs : list string) : schema -> schema := chain (Allow vs).
Definition uri : schema -> schema := chain Uri.
Definition items (i : schema) : schema -> schema := chain (Items i).

Definition required (s : schema) : schema :=
  match s with Schema ty rs _ => Schema ty rs Required end.
Definition optional (s : schema) : schema :=
  match s with Schema ty rs _ => Schema ty rs Optional end.

Definition type_of (s : schema) : base := match s with Schema ty _ _ => ty end.
Definition rules_of (s : schema) : list rule := match s with Schema _ rs _ => rs end.
Definition presence_of (s : schema) : presence := match s with Schema _ _ p => p end.

(** Method chaining, left to right. *)
Notation "s '.>' f" := (f s) (at level 45, left associativity, only parsing).

(** Lines 6-17. *)
Definition productSchema : list (string * schema) :=
  [ ("name", string_ .> max 100 .> required);
    ("description", string_ .> max 2000 .> required);
    ("price", number_ .> min 0 .> required);
    ("stock", number_ .> min 0 .> required);
    ("category",
      string_ .> valid ["Men"; "Women"; "Kids"; "Accessories"; "Unisex"] .> required);
    ("brand", string_ .> optional .> allow [""]);
    ("sizes",
      array_ .> items (string_ .> valid ["XS"; "S"; "M"; "L"; "XL"; "XXL"; "ONESIZE"]));
    ("colors", array_ .> items string_);
    ("sku", string_ .> optional);
    ("imageUrl", string_ .> uri .> optional) ].

(** Lines 19-31. *)
Definition updateProductSchema : list (string * schema) :=
  [ ("name", string_ .> max 100);
    ("description", string_ .> max 2000);
    ("price", number_ .> min 0);
    ("stock", number_ .> min 0);
    ("category",
      string_ .> valid ["Men"; "Women"; "Kids"; "Accessories"; "Unisex"]);
    ("brand", string_ .> optional .> allow [""]);
    ("sizes",
      array_ .> items (string_ .> valid ["XS"; "S"; "M"; "L"; "XL"; "XXL"; "ONESIZE"]));
    ("colors", array_ .> items string_);
    ("sku", string_);
    ("imageUrl", string_ .> uri);
    ("isActive", boolean_) ].

(** The first failure of [schema.validate(body)]. *)
Inductive error : Type :=
| any_required (key : string)      (* a required key is missing *)
| invalid (key : string)           (* the value of a key breaks its schema *)
| object_unknown (key : string).   (* a key the schema does not declare *)

Fixpoint first_error {A : Type} (f : A -> option error) (l : list A) : option error :=
  match l with
  | [] => None
  | a :: rest =>
      match f a with
      | Some e => Some e
      | None => first_error f rest
      end
  end.

Definition declared (keys : list (string * schema)) (k : string) : bool :=
  existsb (String.eqb k) (map fst keys).

Section Validate.

(** Whether a value satisfies a type and its rules: type conversion, string
    length, number range and URI syntax are the validation library's, and are
    left abstract. *)
Variable conforms : base -> list rule -> Json.t -> bool.

Definition check_key (body : Json.object) (entry : string * schema) : option error :=
  let (key, s) := entry in
  match Json.get body key with
  | None =>
      match presence_of s with
      | Required => Some (any_required key)
      | Optional => None
      end
  | Some v => if conforms (type_of s) (rules_of s) v then None else Some (invalid key)
  end.

(** What a declared key demands of a body. *)
Definition satisfied (body : Json.object) (k : string) (s : schema) : Prop :=
  match Json.get body k with
  | Some v => conforms (type_of s) (rules_of s) v = true
  | None => presence_of s = Optional
  end.

Definition check_member (keys : list (string * schema)) (member : string * Json.t)
  : option error :=
  if declared keys (fst member) then None else Some (object_unknown (fst member)).

(** [Joi.object(keys).validate(body)] with the default options: the declared
    keys are checked in order, then undeclared members are refused; the first
    failure is reported. *)
Definition validate (keys : list (string * schema)) (body : Json.object)
  : option error :=
  match first_error (check_key body) keys with
  | Some e => Some e
  | None => first_error (check_member keys) body
  end.

End Validate.

End Joi.

(* ================================================================== *)
(** ** Creating, reading, updating and deleting a product:
    controllers/productController.js *)

Module Crud.

(** A stored product with its identifier. *)
Record document : Type := { _id : string; fields : Product.t }.

(** What a thrown error exposes to the [catch] blocks. *)
Record js_error : Type := {
  code : option Z;
  kind : option string;
  text : string
}.

(** [error.code === c] *)
Definition has_code (e : js_error) (c : Z) : bool :=
  match code e with
  | Some n => n =? c
  | None => false
  end.

Inductive outcome (A : Type) : Type :=
| Resolves (a : A)
| Throws (e : js_error).
Arguments Resolves {A} a.
Arguments Throws {A} e.

Inductive event : Type :=
| Create (body : Json.object)
| FindById (id : string)
| FindByIdAndUpdate (id : string) (body : Json.object)
| DeleteOne (id : string)
| LogInfo (line : string)
| LogError (label : string) (e : js_error).

Inductive reply : Type :=
| Data (status : Z) (data : document)                       (* success: true, data *)
| Note (status : Z) (success : bool) (message : string).    (* success, message *)

Definition status_of (r : reply) : Z :=
  match r with Data s _ => s | Note s _ _ => s end.

Definition success_of (r : reply) : bool :=
  match r with Data _ _ => true | Note _ b _ => b end.

Definition is_store_call (e : event) : bool :=
  match e with
  | LogInfo _ | LogError _ _ => false
  | _ => true
  end.

Section Controllers.

(** The state of the collection and the model operations the controllers
    await. *)
Variable St : Type.
Variable create : St -> Json.object -> outcome document * St.
Variable findById : St -> string -> outcome (option document).
Variable findByIdAndUpdate : St -> string -> Json.object -> outcome (option document) * St.
Variable deleteOne : St -> document -> outcome unit * St.

(** The validation library: value checks and message texts. *)
Variable conforms : Joi.base -> list Joi.rule -> Json.t -> bool.
Variable render : Joi.error -> string.

Record run : Type := { answer : reply; state : St; trace : list event }.

(** Lines 36-65. *)
Definition createProduct (st : St) (body : Json.object) : run :=
  match Joi.validate conforms Joi.productSchema body with
  | Some error =>
      {| answer := Note 400 false (render error); state := st; trace := [] |}
  | None =>
      match create st body with
      | (Resolves product, st') =>
          {| answer := Data 201 product; state := st';
             trace := [Create body; LogInfo ("Product created: " ++ _id product)] |}
      | (Throws error, st') =>
          if has_code error 11000 then
            {| answer := Note 400 false "SKU already exists"; state := st';
               trace := [Create body] |}
          else
            {| answer := Note 500 false "Server error"; state := st';
               trace := [Create body; LogError "Create product error:" error] |}
      end
  end.

(** Lines 134-162. *)
Definition getProduct (st : St) (id : string) : run :=
  match findById st id with
  | Resolves None =>
      {| answer := Note 404 false "Product not found"; state := st;
         trace := [FindById id] |}
  | Resolves (Some product) =>
      {| answer := Data 200 product; state := st; trace := [FindById id] |}
  | Throws error =>
      {| answer := if Js.strict_eq (kind error) "ObjectId"
                   then Note 404 false "Product not found"
                   else Note 500 false "Server error";
         state := st;
         trace := [FindById id; LogError "Get product error:" error] |}
  end.

(** Lines 167-202. *)
Definition updateProduct (st : St) (id : string) (body : Json.object) : run :=
  match Joi.validate conforms Joi.updateProductSchema body with
  | Some error =>
      {| answer := Note 400 false (render error); state := st; trace := [] |}
  | None =>
      match findByIdAndUpdate st id body with
      | (Resolves None, st') =>
          {| answer := Note 404 false "Product not found"; state := st';
             trace := [FindByIdAndUpdate id body] |}
      | (Resolves (Some product), st') =>
          {| answer := Data 200 product; state := st';
             trace := [FindByIdAndUpdate id body;
                       LogInfo ("Product updated: " ++ _id product)] |}
      | (Throws error, st') =>
          {| answer := Note 500 false "Server error"; state := st';
             trace := [FindByIdAndUpdate id body;
                       LogError "Update product error:" error] |}
      end
  end.

(** Lines 207-233. *)
Definition deleteProduct (st : St) (id : string) : run :=
  match findById st id with
  | Resolves None =>
      {| answer := Note 404 false "Product not found"; state := st;
         trace := [FindById id] |}
  | Resolves (Some product) =>
      match deleteOne st product with
      | (Resolves _, st') =>
          {| answer := Note 200 true "Product removed"; state := st';
             trace := [FindById id; DeleteOne (_id product);
                       LogInfo ("Product deleted: " ++ id)] |}
      | (Throws error, st') =>
          {| answer := Note 500 false "Server error"; state := st';
             trace := [FindById id; DeleteOne (_id product);
                       LogError "Delete product error:" error] |}
      end
  | Throws error =>
      {| answer := Note 500 false "Server error"; state := st;
         trace := [FindById id; LogError "Delete product error:" error] |}
  end.

End Controllers.

Arguments answer {St} r.
Arguments state {St} r.
Arguments trace {St} r.

End Crud.

(* ================================================================== *)
(** ** The product routes *)

Module Router.

Inductive method : Type := GET | POST | PUT | DELETE.

(** The two paths the router declares: ['/'] and ['/:id']. *)
Inductive pattern : Type := root | by_id.

Inductive handler : Type :=
| auth | isAdmin
| createProduct | getProducts | getProduct | updateProduct | deleteProduct.

(** The route table, in registration order. *)
Definition routes : list (method * pattern * list handler) :=
  [ (GET, root, [getProducts]);
    (GET, by_id, [getProduct]);
    (POST, root, [auth; isAdmin; createProduct]);
    (PUT, by_id, [auth; isAdmin; updateProduct]);
    (DELETE, by_id, [auth; isAdmin; deleteProduct]) ].

(** A request as the router sees it: the path is what follows the mount
    point, split into its segments. *)
Record request : Type := {
  verb : method;
  path : list string;
  context : Admin.request;
  query : ReqQuery.t;
  body : Json.object
}.

Definition with_context (c : Admin.request) (r : request) : request :=
  {| verb := verb r; path := path r; context := c; query := query r;
     body := body r |}.

Definition method_eqb (a b : method) : bool :=
  match a, b with
  | GET, GET | POST, POST | PUT, PUT | DELETE, DELETE => true
  | _, _ => false
  end.

(** [Some params] when the path matches; [params] is [req.params.id]. *)
Definition match_path (p : pattern) (segments : list string) : option string :=
  match p, segments with
  | root, [] => Some ""
  | by_id, [id] => Some id
  | _, _ => None
  end.

Fixpoint lookup (rs : list (method * pattern * list handler)) (r : request)
  : option (string * list handler) :=
  match rs with
  | [] => None
  | (m, p, hs) :: rest =>
      if method_eqb m (verb r) then
        match match_path p (path r) with
        | Some id => Some (id, hs)
        | None => lookup rest r
        end
      else lookup rest r
  end.

Inductive answer : Type :=
| Gate (status : Z) (b : Admin.body)
| Listed (r : Products.response)
| Product (r : Crud.reply)
| Unrouted.

Inductive effect : Type :=
| UserStore (e : Admin.event)
| ProductStore (e : Crud.event).

Section Serve.

Variable St : Type.
Variable create : St -> Json.object -> Crud.outcome Crud.document * St.
Variable findById : St -> string -> Crud.outcome (option Crud.document).
Variable findByIdAndUpdate :
  St -> string -> Json.object -> Crud.outcome (option Crud.document) * St.
Variable deleteOne : St -> Crud.document -> Crud.outcome unit * St.
Variable conforms : Joi.base -> list Joi.rule -> Json.t -> bool.
Variable render : Joi.error -> string.

(** The listing queries of [getProducts] over the current collection. *)
Variable listing : St -> Products.Store.

(** The credential store. *)
Variable findUser : string -> Admin.lookup.

(** The authentication middleware (middleware/auth.js): it answers itself or
    passes the request on, possibly with [req.user] set. *)
Variable authenticate : request -> Admin.outcome.

Record result : Type := { reply : answer; state : St; effects : list effect }.

Definition finish (eff : list effect) (r : Crud.run St) : result :=
  {| reply := Product (Crud.answer r);
     state := Crud.state r;
     effects := eff ++ map ProductStore (Crud.trace r) |}.

(** The handlers of a route run in order; each one answers or calls
    [next()]. *)
Fixpoint run_chain (hs : list handler) (id : string) (r : request) (st : St)
    (eff : list effect) : result :=
  match hs with
  | [] => {| reply := Unrouted; state := st; effects := eff |}
  | h :: rest =>
      match h with
      | auth =>
          match authenticate r with
          | Admin.Respond status b =>
              {| reply := Gate status b; state := st; effects := eff |}
          | Admin.Next c => run_chain rest id (with_context c r) st eff
          end
      | isAdmin =>
          match Admin.isAdmin findUser (context r) with
          | (evs, Admin.Respond status b) =>
              {| reply := Gate status b; state := st;
                 effects := eff ++ map UserStore evs |}
          | (evs, Admin.Next c) =>
              run_chain rest id (with_context c r) st (eff ++ map UserStore evs)
          end
      | getProducts =>
          {| reply := Listed (Products.getProducts (listing st) (query r));
             state := st; effects := eff |}
      | createProduct =>
          finish eff (Crud.createProduct St create conforms render st (body r))
      | getProduct =>
          finish eff (Crud.getProduct St findById st id)
      | updateProduct =>
          finish eff (Crud.updateProduct St findByIdAndUpdate conforms render
                        st id (body r))
      | deleteProduct =>
          finish eff (Crud.deleteProduct St findById deleteOne st id)
      end
  end.

Definition serve (r : request) (st : St) : result :=
  match lookup routes r with
  | Some (id, hs) => run_chain hs id r st []
  | None => {| reply := Unrouted; state := st; effects := [] |}
  end.

End Serve.

Arguments reply {St} r.
Arguments state {St} r.
Arguments effects {St} r.

End Router.

(* ================================================================== *)
(** ** An in-memory collection, for examples *)

Module Memory.
Import Crud.

Record St : Type := { next : nat; docs : list document }.

Definition hex_digit (n : nat) : ascii :=
  ascii_of_nat (if (n <? 10)%nat then 48 + n else 87 + n).

Fixpoint hex (width n : nat) : string :=
  match width with
  | O => ""
  | S w => hex w (n / 16) ++ String (hex_digit (n mod 16)) ""
  end.

(** Identifiers are 24 hexadecimal digits. *)
Definition valid_id (id : string) : bool :=
  (String.length id =? 24)%nat
  && forallb (fun c => match Js.digit 16 c with Some _ => true | None => false end)
       (list_ascii_of_string id).

Definition cast_error : js_error :=
  {| code := None; kind := Some "ObjectId"; text := "Cast to ObjectId failed" |}.

Definition duplicate_key : js_error :=
  {| code := Some 11000; kind := None; text := "E11000 duplicate key error" |}.

Definition connection_lost : js_error :=
  {| code := None; kind := None; text := "MongoNetworkError" |}.

Definition has_id (id : string) (d : document) : bool := String.eqb (_id d) id.

Definition text_of (o : Json.object) (k : string) (d : string) : string :=
  match Json.get o k with Some (Json.Str s) => s | _ => d end.

Definition opt_text_of (o : Json.object) (k : string) (d : option string) : option string :=
  match Json.get o k with Some (Json.Str s) => Some s | _ => d end.

Definition num_of (o : Json.object) (k : string) (d : Q) : Q :=
  match Json.get o k with
  | Some (Json.Num (Js.JFin q)) => q
  | Some (Json.Num Js.JNegZero) => 0
  | _ => d
  end.

Definition flag_of (o : Json.object) (k : string) (d : bool) : bool :=
  match Json.get o k with Some (Json.Bool b) => b | _ => d end.

(** The fields of [p] overwritten by the members of [o]. *)
Definition patch (o : Json.object) (p : Product.t) : Product.t :=
  {| Product.name := text_of o "name" (Product.name p);
     Product.description := text_of o "description" (Product.description p);
     Product.price := num_of o "price" (Product.price p);
     Product.stock := num_of o "stock" (Product.stock p);
     Product.category := text_of o "category" (Product.category p);
     Product.brand := opt_text_of o "brand" (Product.brand p);
     Product.sizes := Product.sizes p;
     Product.colors := Product.colors p;
     Product.sku := opt_text_of o "sku" (Product.sku p);
     Product.imageUrl := text_of o "imageUrl" (Product.imageUrl p);
     Product.isActive := flag_of o "isActive" (Product.isActive p);
     Product.createdAt := Product.createdAt p |}.

Definition blank (t : Z) : Product.t :=
  {| Product.name := ""; Product.description := ""; Product.price := 0;
     Product.stock := 0; Product.category := ""; Product.brand := None;
     Product.sizes := []; Product.colors := []; Product.sku := None;
     Product.imageUrl := "https://via.placeholder.com/150";
     Product.isActive := true; Product.createdAt := t |}.

Definition same_sku (s : option string) (d : document) : bool :=
  match s, Product.sku (fields d) with
  | Some a, Some b => String.eqb a b
  | _, _ => false
  end.

Definition create (st : St) (body : Json.object) : outcome document * St :=
  let p := patch body (blank (Z.of_nat (next st))) in
  if existsb (same_sku (Product.sku p)) (docs st) then (Throws duplicate_key, st)
  else
    let d := {| _id := hex 24 (next st); fields := p |} in
    (Resolves d, {| next := S (next st); docs := docs st ++ [d] |}).

Definition findById (st : St) (id : string) : outcome (option document) :=
  if valid_id id then Resolves (List.find (has_id id) (docs st))
  else Throws cast_error.

Definition findByIdAndUpdate (st : St) (id : string) (body : Json.object)
  : outcome (option document) * St :=
  if valid_id id then
    match List.find (has_id id) (docs st) with
    | Some d =>
        let d' := {| _id := _id d; fields := patch body (fields d) |} in
        if existsb (fun x => negb (has_id id x) && same_sku (Product.sku (fields d')) x)
                   (docs st)
        then (Throws duplicate_key, st)
        else
          (Resolves (Some d'),
           {| next := next st;
              docs := map (fun x => if has_id id x then d' else x) (docs st) |})
    | None => (Resolves None, st)
    end
  else (Throws cast_error, st).

Definition deleteOne (st : St) (d : document) : outcome unit * St :=
  (Resolves tt,
   {| next := next st;
      docs := filter (fun x => negb (has_id (_id d) x)) (docs st) |}).

(** A store whose every call fails. *)
Definition down_findById (st : St) (id : string) : outcome (option document) :=
  Throws connection_lost.

(** A validator that checks JSON types and the length, range and enumeration
    rules. *)
Definition rule_ok (v : Json.t) (r : Joi.rule) : bool :=
  match r, v with
  | Joi.Max n, Json.Str s => Z.of_nat (String.length s) <=? n
  | Joi.Min n, Json.Num (Js.JFin q) => Qle_bool (inject_Z n) q
  | Joi.Min n, Json.Num Js.JNegZero => n <=? 0
  | Joi.Valid vs, Json.Str s => existsb (String.eqb s) vs
  | _, _ => true
  end.

Definition conforms (ty : Joi.base) (rs : list Joi.rule) (v : Json.t) : bool :=
  match ty, v with
  | Joi.string_type, Json.Str _
  | Joi.number_type, Json.Num (Js.JFin _) | Joi.number_type, Json.Num Js.JNegZero
  | Joi.array_type, Json.Arr _ | Joi.boolean_type, Json.Bool _ =>
      forallb (rule_ok v) rs
  | _, _ => false
  end.

Definition render (e : Joi.error) : string :=
  match e with
  | Joi.any_required k => k ++ " is required"
  | Joi.invalid k => k ++ " is invalid"
  | Joi.object_unknown k => k ++ " is not allowed"
  end.

Definition empty : St := {| next := 1; docs := [] |}.

Definition tee : Json.object :=
  [ ("name", Json.Str "Test T-Shirt");
    ("description", Json.Str "A comfortable cotton t-shirt");
    ("price", Json.Num (Js.StringToNumber "29.99"));
    ("stock", Json.Num (Js.of_Z 100));
    ("category", Json.Str "Men");
    ("brand", Json.Str "Generic");
    ("sku", Json.Str "TEE-1") ].

Definition tee_id : string := hex 24 1.

(** The collection after [tee] was created. *)
Definition stocked : St := snd (create empty tee).

Definition cap : Json.object :=
  [ ("name", Json.Str "Cap");
    ("description", Json.Str "A cap");
    ("price", Json.Num (Js.of_Z 12));
    ("stock", Json.Num (Js.of_Z 3));
    ("category", Json.Str "Unisex");
    ("sku", Json.Str "CAP-1") ].

Definition cap_id : string := hex 24 2.

(** The collection after [tee] and [cap] were created. *)
Definition two : St := snd (create stocked cap).

Definition users (id : string) : Admin.lookup := Samples.users id.

(** An authentication middleware that trusts the [x-user] it is given. *)
Definition trusting (id : option string) (r : Router.request) : Admin.outcome :=
  match id with
  | Some u =>
      Admin.Next {| Admin.req_user :=
                      Some {| Admin.userId := Some u; Admin.iat := 0; Admin.exp := 86400 |};
                    Admin.currentUser := None |}
  | None => Admin.Respond 401 (Admin.refusal "No token, authorization denied")
  end.

Definition no_listing (st : St) : Products.Store :=
  Catalog.sample (map fields (docs st)).

Definition call (m : Router.method) (segments : list string) (b : Json.object)
  : Router.request :=
  {| Router.verb := m; Router.path := segments; Router.context := Samples.anonymous;
     Router.query := ReqQuery.empty; Router.body := b |}.

End Memory.

(* ================================================================== *)
(** ** Walking through the pages of a listing *)

Module Paging.

(** The same request for another page. *)
Definition with_page (v : option string) (rq : ReqQuery.t) : ReqQuery.t :=
  {| ReqQuery.page := v; ReqQuery.limit := ReqQuery.limit rq;
     ReqQuery.category := ReqQuery.category rq; ReqQuery.brand := ReqQuery.brand rq;
     ReqQuery.search := ReqQuery.search rq; ReqQuery.sort := ReqQuery.sort rq;
     ReqQuery.minPrice := ReqQuery.minPrice rq;
     ReqQuery.maxPrice := ReqQuery.maxPrice rq |}.

(** The [data] of a response. *)
Definition data_of (r : Products.response) : list Product.t :=
  match r with
  | Products.Listing data _ => data
  | Products.Failure _ _ => []
  end.

(** The number of pages of [total] records, [limit] to a page. *)
Definition page_count (total : nat) (limit : Z) : nat :=
  Z.to_nat ((Z.of_nat total + limit - 1) / limit).

Definition priced (lo hi : string) : ReqQuery.t :=
  {| ReqQuery.page := None; ReqQuery.limit := None; ReqQuery.category := None;
     ReqQuery.brand := None; ReqQuery.search := None; ReqQuery.sort := None;
     ReqQuery.minPrice := Some lo; ReqQuery.maxPrice := Some hi |}.

(** Page numbers written out, for examples with two pages. *)
Definition numeral (k : nat) : string :=
  match k with
  | 1%nat => "1"
  | _ => "2"
  end.

End Paging.

(* ================================================================== *)
(** ** The authorization gate: properties *)

Module AdminProps.
Import Admin.

Lemma subject_of_Some (req : request) (id : string) :
  subject_of req = Some id ->
  exists sub, req_user req = Some sub /\ userId sub = Some id
              /\ Js.truthy (userId sub) = true.
Proof.
  unfold subject_of. destruct (req_user req) as [sub|]; [|discriminate].
  destruct (Js.truthy (userId sub)) eqn:T; [|discriminate].
  intros H. exists sub. auto.
Qed.

Lemma isAdmin_lookup (findById : string -> lookup) (req : request) (id : string) :
  subject_of req = Some id ->
  isAdmin findById req =
    match findById id with
    | Thrown error =>
        ([FindById id; LogError "Admin middleware error:" error],
         Respond 500 (refusal "Server error during authorization"))
    | Null => ([FindById id], Respond 404 (refusal "User not found"))
    | Found user =>
        if String.eqb (role user) "admin"
        then ([FindById id],
              Next {| req_user := req_user req; currentUser := Some user |})
        else ([FindById id],
              Respond 403 (refusal "Access denied: Admin privileges required"))
    end.
Proof.
  intros H. destruct (subject_of_Some _ _ H) as (sub & Hu & Hid & Ht).
  unfold isAdmin. rewrite Hu, Ht, Hid. cbn [negb].
  destruct (findById id) as [u| |e]; try reflexivity.
  destruct (String.eqb (role u) "admin"); reflexivity.
Qed.

(** C1: when a Subject is present and its user record exists, a role other
    than 'admin' is answered with 403 and a [{ success: false, message }]
    body; role 'admin' passes control on with the full record attached to the
    request as [currentUser]. *)
Theorem isAdmin_decides_by_role
    (findById : string -> lookup) (req : request) (id : string) (u : user) :
  subject_of req = Some id ->
  findById id = Found u ->
  (role u <> "admin" ->
     snd (isAdmin findById req)
       = Respond 403 {| success := false;
                        message := "Access denied: Admin privileges required" |})
  /\ (role u = "admin" ->
        snd (isAdmin findById req)
          = Next {| req_user := req_user req; currentUser := Some u |}).
Proof.
  intros Hs Hf. rewrite (isAdmin_lookup _ _ _ Hs), Hf. split; intros Hr.
  - apply String.eqb_neq in Hr. rewrite Hr. reflexivity.
  - apply String.eqb_eq in Hr. rewrite Hr. reflexivity.
Qed.

Lemma isAdmin_decides_by_role_witness :
  snd (isAdmin Samples.users (Samples.request_of "u2"))
    = Respond 403 {| success := false;
                     message := "Access denied: Admin privileges required" |}
  /\ snd (isAdmin Samples.users (Samples.request_of "u1"))
     = Next {| req_user := req_user (Samples.request_of "u1");
               currentUser := Some Samples.alice |}.
Proof.
  split.
  - apply (isAdmin_decides_by_role Samples.users (Samples.request_of "u2") "u2" Samples.bob);
      [reflexivity | reflexivity | discriminate].
  - apply (isAdmin_decides_by_role Samples.users (Samples.request_of "u1") "u1" Samples.alice);
      reflexivity.
Defined.

(** C7: without a Subject the gate answers 401 and performs no lookup; with a
    Subject whose lookup resolves to no record it answers 404. *)
Theorem isAdmin_401_then_404 (findById : string -> lookup) (req : request) :
  (subject_of req = None ->
     isAdmin findById req = ([], Respond 401 (refusal "Authentication required")))
  /\ (forall id, subject_of req = Some id -> findById id = Null ->
        snd (isAdmin findById req) = Respond 404 (refusal "User not found")).
Proof.
  split.
  - unfold subject_of, isAdmin. destruct (req_user req) as [sub|]; [|reflexivity].
    destruct (Js.truthy (userId sub)) eqn:T; [|reflexivity].
    destruct (userId sub); [discriminate | discriminate T].
  - intros id Hs Hf. rewrite (isAdmin_lookup _ _ _ Hs), Hf. reflexivity.
Qed.

Lemma isAdmin_401_then_404_witness :
  isAdmin Samples.users Samples.anonymous
    = ([], Respond 401 (refusal "Authentication required"))
  /\ snd (isAdmin Samples.users (Samples.request_of "u9"))
     = Respond 404 (refusal "User not found").
Proof.
  split.
  - apply (proj1 (isAdmin_401_then_404 Samples.users Samples.anonymous)). reflexivity.
  - apply (proj2 (isAdmin_401_then_404 Samples.users (Samples.request_of "u9")) "u9");
      reflexivity.
Defined.

(** C8: when the lookup throws, the gate logs the error and answers 500 with
    the fixed body [{ success: false, message: 'Server error during
    authorization' }], whatever the error was. *)
Theorem isAdmin_catches_lookup_errors
    (findById : string -> lookup) (req : request) (id error : string) :
  subject_of req = Some id ->
  findById id = Thrown error ->
  isAdmin findById req =
    ([FindById id; LogError "Admin middleware error:" error],
     Respond 500 {| success := false;
                    message := "Server error during authorization" |}).
Proof.
  intros Hs Hf. rewrite (isAdmin_lookup _ _ _ Hs), Hf. reflexivity.
Qed.

Lemma isAdmin_catches_lookup_errors_witness :
  isAdmin Samples.users (Samples.request_of "boom") =
    ([FindById "boom";
      LogError "Admin middleware error:" "MongoNetworkError: connection refused"],
     Respond 500 {| success := false;
                    message := "Server error during authorization" |}).
Proof.
  apply (isAdmin_catches_lookup_errors Samples.users (Samples.request_of "boom")
           "boom" "MongoNetworkError: connection refused"); reflexivity.
Defined.

End AdminProps.

(* ================================================================== *)
(** ** Number coercion: facts *)

Module JsProps.
Import Js.

Lemma Qred_inject_Z (z : Z) : Qred (inject_Z z) = inject_Z z.
Proof.
  apply Qred_identity. cbn. apply Z.gcd_1_r.
Qed.

(** Integers up to [2^53] in magnitude are binary64 values. *)
Lemma fits_inject_Z (n : Z) : Z.abs n <= 2 ^ 53 -> fits (inject_Z n) = true.
Proof.
  intros H. unfold fits. cbn [inject_Z Qnum Qden].
  rewrite Z.gcd_1_r. cbn [Z.eqb Pos.eqb andb].
  apply andb_true_iff. split.
  - apply Z.ltb_lt.
    apply Z.le_lt_trans with (2 ^ 53); [exact H|].
    apply Z.pow_lt_mono_r; lia.
  - apply Z.eqb_eq.
    destruct (Z.eq_dec (Z.abs n) 0) as [E|Hn].
    { rewrite E. reflexivity. }
    assert (L : Z.log2 (Z.abs n) <= 53).
    { change 53 with (Z.log2 (2 ^ 53)). apply Z.log2_le_mono. exact H. }
    destruct (Z.eq_dec (Z.log2 (Z.abs n)) 53) as [E|Hl].
    + rewrite E.
      assert (E' : Z.abs n = 2 ^ 53).
      { pose proof (Z.log2_spec (Z.abs n) ltac:(lia)) as [B _].
        rewrite E in B. lia. }
      rewrite E'. reflexivity.
    + replace (Z.max 0 (Z.log2 (Z.abs n) - 52)) with 0 by lia.
      apply Z.mod_1_r.
Qed.

(** A real number that is such an integer is not rounded. *)
Lemma round_exact (s : bool) (q : Q) (n : Z) :
  q == inject_Z n -> Z.abs n <= 2 ^ 53 -> (n = 0 -> s = false) ->
  round s q = of_Z n.
Proof.
  intros E B Hs. unfold round.
  destruct (Z.eqb_spec (Qnum q) 0) as [Hz|Hz].
  - assert (n = 0).
    { unfold Qeq in E. cbn in E. rewrite Hz in E. lia. }
    subst n. rewrite (Hs eq_refl). reflexivity.
  - rewrite (Qred_complete _ _ E), Qred_inject_Z, (fits_inject_Z n B).
    reflexivity.
Qed.

Lemma of_nat_of_Z (n : nat) :
  Z.of_nat n <= 2 ^ 53 -> of_nat n = of_Z (Z.of_nat n).
Proof.
  intros H. unfold of_nat. apply round_exact; [reflexivity | lia | reflexivity].
Qed.

(** Products and differences of integers are exact up to [2^53]. *)
Lemma mul_of_Z (a b : Z) :
  0 <= a -> 0 <= b -> a * b <= 2 ^ 53 -> mul (of_Z a) (of_Z b) = of_Z (a * b).
Proof.
  intros Ha Hb H. unfold mul, of_Z, shape_of. cbn [inject_Z Qnum].
  apply round_exact.
  - rewrite inject_Z_mult. reflexivity.
  - lia.
  - intros _.
    destruct (Z.ltb_spec a 0), (Z.ltb_spec b 0); try lia. reflexivity.
Qed.

Lemma sub_of_Z (a b : Z) :
  Z.abs (a - b) <= 2 ^ 53 -> sub (of_Z a) (of_Z b) = of_Z (a - b).
Proof.
  intros H. unfold sub, of_Z, shape_of, is_zero. cbn [inject_Z Qnum].
  apply round_exact.
  - unfold Qeq, Qminus, Qplus, Qopp, inject_Z; cbn. lia.
  - exact H.
  - intros _.
    destruct (Z.eqb_spec a 0) as [->|]; [|reflexivity].
    cbn. rewrite andb_false_r. reflexivity.
Qed.

(** Every rounding yields a binary64 value. *)
Lemma zero_valid (s : bool) : valid (zero s).
Proof. destruct s; reflexivity. Qed.

Lemma nearest_valid (q : Q) : valid (nearest q).
Proof.
  unfold nearest.
  destruct (_ =? 0); [apply zero_valid|].
  destruct (fits _) eqn:F; [exact F | exact I].
Qed.

Lemma round_valid (s : bool) (q : Q) : valid (round s q).
Proof.
  unfold round.
  destruct (Qnum q =? 0); [apply zero_valid|].
  destruct (fits (Qred q)) eqn:F; [exact F | apply nearest_valid].
Qed.

Lemma unsigned_literal_valid (neg : bool) (l : list ascii) :
  valid (unsigned_literal neg l).
Proof.
  unfold unsigned_literal.
  destruct (list_ascii_eqb l str_infinity); [exact I|].
  destruct (unsigned_decimal l); [apply round_valid | exact I].
Qed.

Lemma radix_literal_valid (radix : Z) (l : list ascii) :
  valid (radix_literal radix l).
Proof.
  unfold radix_literal.
  destruct (digits radix l 0 0) as [[v [|n]] [|c r]];
    try exact I; apply round_valid.
Qed.

Lemma StringToNumber_valid (s : string) : valid (StringToNumber s).
Proof.
  unfold StringToNumber.
  destruct (trim (list_ascii_of_string s)) as [|c t]; [reflexivity|].
  destruct t as [|p u].
  - destruct (Ascii.eqb c "-"); [|destruct (Ascii.eqb c "+")];
      apply unsigned_literal_valid.
  - destruct (Ascii.eqb c "0");
      [destruct (Ascii.eqb p "x" || Ascii.eqb p "X")%bool;
       [apply radix_literal_valid|];
       destruct (Ascii.eqb p "o" || Ascii.eqb p "O")%bool;
       [apply radix_literal_valid|];
       destruct (Ascii.eqb p "b" || Ascii.eqb p "B")%bool;
       [apply radix_literal_valid|]|];
      (destruct (Ascii.eqb c "-"); [|destruct (Ascii.eqb c "+")];
       apply unsigned_literal_valid).
Qed.

(** [x * 1] is [x]: the conversion applied to [limit]. *)
Lemma mul_one (x : JsNum) : valid x -> mul x (of_Z 1) = x.
Proof.
  destruct x as [|s| |q]; intros V; try reflexivity.
  - destruct s; reflexivity.
  - cbn [valid] in V.
    change (mul (JFin q) (of_Z 1)) with (round (xorb (Qnum q <? 0) false) (q * 1)).
    unfold round.
    assert (G : Z.gcd (Qnum q) (QDen q) = 1).
    { unfold fits in V. apply andb_true_iff in V. destruct V as [V _].
      apply Z.eqb_eq in V. rewrite Z.gcd_abs_l in V. exact V. }
    assert (E : Qnum (q * 1) = Qnum q) by (cbn; lia).
    rewrite E.
    destruct (Z.eqb_spec (Qnum q) 0) as [Hz|Hz].
    + destruct q as [n d]. cbn in Hz, G. subst n. cbn in G.
      injection G as ->. reflexivity.
    + rewrite (Qred_complete _ _ (Qmult_1_r q)), (Qred_identity q G), V.
      reflexivity.
Qed.

(** *** Rounding a quotient of integers *)

Lemma ilog2_bounds (n D : Z) :
  0 < n < 2 ^ 53 -> 0 < D < 2 ^ 53 ->
  -53 <= ilog2 n D <= 52
  /\ n * 2 ^ (52 - ilog2 n D) < D * 2 ^ 53
  /\ D < 2 ^ (53 - ilog2 n D).
Proof.
  intros Hn HD.
  pose proof (Z.log2_spec n ltac:(lia)) as [Ln Un].
  pose proof (Z.log2_spec D ltac:(lia)) as [Ld Ud].
  pose proof (Z.log2_nonneg n) as Nn. pose proof (Z.log2_nonneg D) as Nd.
  assert (Bn : Z.log2 n < 53) by (apply Z.log2_lt_pow2; lia).
  assert (Bd : Z.log2 D < 53) by (apply Z.log2_lt_pow2; lia).
  unfold Z.succ in Un, Ud.
  unfold ilog2.
  set (la := Z.log2 n) in *. set (lb := Z.log2 D) in *.
  set (l := la - lb).
  assert (K : forall L, l - 1 <= L <= l ->
            n * 2 ^ (52 - L) < D * 2 ^ 53 ->
            -53 <= L <= 52 /\ n * 2 ^ (52 - L) < D * 2 ^ 53 /\ D < 2 ^ (53 - L)).
  { intros L HL H. split; [unfold l in *; lia|]. split; [exact H|].
    apply Z.lt_le_trans with (2 ^ (lb + 1)); [exact Ud|].
    apply Z.pow_le_mono_r; unfold l in *; lia. }
  assert (P53 : 0 < 2 ^ 53) by (apply Z.pow_pos_nonneg; lia).
  destruct (if 0 <=? l then D * 2 ^ l <=? n else D <=? n * 2 ^ (- l)) eqn:C.
  - apply K; [lia|].
    assert (E : 2 ^ (la + 1) * 2 ^ (52 - l) = 2 ^ lb * 2 ^ 53).
    { rewrite <- !Z.pow_add_r by (unfold l; lia). f_equal. unfold l. lia. }
    assert (0 < 2 ^ (52 - l)) by (apply Z.pow_pos_nonneg; unfold l; lia).
    nia.
  - apply K; [lia|]. replace (52 - (l - 1)) with (53 - l) by lia.
    destruct (Z.leb_spec 0 l) as [Hl|Hl].
    + apply Z.leb_gt in C.
      assert (E : 2 ^ l * 2 ^ (53 - l) = 2 ^ 53).
      { rewrite <- Z.pow_add_r by (unfold l in *; lia). f_equal. lia. }
      assert (0 < 2 ^ (53 - l)) by (apply Z.pow_pos_nonneg; unfold l; lia).
      nia.
    + apply Z.leb_gt in C.
      assert (E : 2 ^ (53 - l) = 2 ^ (- l) * 2 ^ 53).
      { rewrite <- Z.pow_add_r by lia. f_equal. lia. }
      rewrite E. nia.
Qed.

Lemma nearest_integer_between (n D P k : Z) :
  0 < D -> 0 < P -> (k - 1) * D < n <= k * D -> D < 2 * P ->
  (k - 1) * P < nearest_integer (n * P) D <= k * P.
Proof.
  intros HD HP Hk H2.
  pose proof (Z.div_mod (n * P) D ltac:(lia)) as E.
  pose proof (Z.mod_pos_bound (n * P) D HD) as B.
  unfold nearest_integer.
  set (f := n * P / D) in *. set (r := (n * P) mod D) in *.
  assert (H1 : D * ((k - 1) * P) < n * P) by nia.
  assert (H3 : n * P <= D * (k * P)) by nia.
  assert (Hlo : (k - 1) * P <= f).
  { destruct (Z.le_gt_cases ((k - 1) * P) f) as [|G]; [assumption|].
    assert (D * (f + 1) <= D * ((k - 1) * P)) by (apply Z.mul_le_mono_nonneg_l; lia).
    lia. }
  assert (Hhi : f <= k * P).
  { destruct (Z.le_gt_cases f (k * P)) as [|G]; [assumption|].
    assert (D * (k * P + 1) <= D * f) by (apply Z.mul_le_mono_nonneg_l; lia).
    lia. }
  assert (Hr : 0 < r -> f + 1 <= k * P).
  { intros Hr. destruct (Z.le_gt_cases (f + 1) (k * P)) as [|G]; [assumption|].
    assert (D * (k * P) <= D * f) by (apply Z.mul_le_mono_nonneg_l; lia).
    lia. }
  assert (Ht : f = (k - 1) * P -> D < 2 * r).
  { intros Hf.
    assert (Er : r = P * (n - (k - 1) * D)).
    { replace (P * (n - (k - 1) * D)) with (n * P - D * ((k - 1) * P)) by ring.
      rewrite <- Hf. lia. }
    assert (P * 1 <= P * (n - (k - 1) * D)) by (apply Z.mul_le_mono_nonneg_l; lia).
    lia. }
  destruct (Z.compare_spec (2 * r) D) as [C|C|C].
  - destruct (Z.even f); lia.
  - lia.
  - lia.
Qed.

Lemma nearest_integer_le (a b : Z) : nearest_integer a b <= a / b + 1.
Proof.
  unfold nearest_integer.
  destruct (2 * (a mod b) ?= b); [destruct (Z.even (a / b))| |]; lia.
Qed.

Lemma odd_gcd_2 (m : Z) : Z.odd m = true -> Z.gcd m 2 = 1.
Proof.
  intros Hm. apply Z.odd_spec in Hm. destruct Hm as [h Hh].
  pose proof (Z.gcd_divide_l m 2) as [u Hu].
  pose proof (Z.gcd_divide_r m 2) as Hv.
  pose proof (Z.gcd_nonneg m 2) as Hg.
  apply Z.divide_pos_le in Hv; [|lia].
  set (g := Z.gcd m 2) in *.
  assert (C : g = 0 \/ g = 1 \/ g = 2) by lia.
  destruct C as [C|[C|C]]; [|exact C|]; rewrite C in Hu; lia.
Qed.

Lemma odd_gcd_pow2 (m j : Z) : 0 <= j -> Z.odd m = true -> Z.gcd m (2 ^ j) = 1.
Proof.
  intros Hj Hm. pattern j. apply natlike_ind; [| |exact Hj].
  - rewrite Z.pow_0_r. apply Z.gcd_1_r.
  - intros x Hx IH. rewrite Z.pow_succ_r by lia.
    apply Z.coprime_mul_r; [apply odd_gcd_2; exact Hm | exact IH].
Qed.

Lemma fits_dyadic (j : nat) (m : Z) :
  0 < m <= 2 ^ 53 -> Z.of_nat j <= 1074 ->
  fits (Qred (m # Z.to_pos (2 ^ Z.of_nat j))) = true.
Proof.
  revert m. induction j as [|j IH]; intros m Hm Hj.
  - change (m # Z.to_pos (2 ^ Z.of_nat 0)) with (inject_Z m).
    rewrite Qred_inject_Z. apply fits_inject_Z. lia.
  - assert (P : 0 < 2 ^ Z.of_nat (S j)) by (apply Z.pow_pos_nonneg; lia).
    assert (P' : 0 < 2 ^ Z.of_nat j) by (apply Z.pow_pos_nonneg; lia).
    assert (E2 : 2 ^ Z.of_nat (S j) = 2 * 2 ^ Z.of_nat j).
    { rewrite Nat2Z.inj_succ, Z.pow_succ_r by lia. reflexivity. }
    destruct (Z.odd m) eqn:O.
    + assert (G : Z.gcd m (2 ^ Z.of_nat (S j)) = 1)
        by (apply odd_gcd_pow2; [lia | exact O]).
      rewrite Qred_identity
        by (cbn [Qnum Qden]; rewrite Z2Pos.id by exact P; exact G).
      unfold fits. cbn [Qnum Qden]. rewrite Z2Pos.id by exact P.
      rewrite Z.gcd_abs_l, G.
      destruct (Z.eqb_spec (2 ^ Z.of_nat (S j)) 1) as [E|_]; [lia|].
      rewrite Z.log2_pow2 by lia. rewrite !Z.eqb_refl.
      cbn [andb].
      apply andb_true_iff. split; [apply Z.leb_le; lia | apply Z.ltb_lt].
      assert (m <> 2 ^ 53) by (intros E; rewrite E in O; discriminate O).
      lia.
    + assert (Hev : Z.even m = true) by (rewrite <- Z.negb_odd, O; reflexivity).
      apply Z.even_spec in Hev. destruct Hev as [h Hh].
      rewrite (Qred_complete _ (h # Z.to_pos (2 ^ Z.of_nat j))).
      * apply IH; lia.
      * unfold Qeq. cbn [Qnum Qden]. rewrite !Z2Pos.id by assumption.
        rewrite E2, Hh. ring.
Qed.

Lemma fits_scale2 (m e : Z) :
  0 < m <= 2 ^ 53 -> -1074 <= e <= 0 -> fits (scale2 m e) = true.
Proof.
  intros Hm He. unfold scale2.
  destruct (Z.leb_spec 0 e) as [H|H].
  - replace e with 0 by lia. rewrite Z.pow_0_r, Z.mul_1_r.
    apply fits_inject_Z. lia.
  - rewrite <- (Z2Nat.id (- e)) by lia. apply fits_dyadic; [exact Hm | lia].
Qed.

Lemma scale2_eq (m e : Z) :
  e <= 0 -> scale2 m e == m # Z.to_pos (2 ^ (- e)).
Proof.
  intros He. unfold scale2.
  destruct (Z.leb_spec 0 e) as [H|H].
  - replace e with 0 by lia. change (- 0) with 0.
    rewrite Z.pow_0_r, Z.mul_1_r. reflexivity.
  - apply Qred_correct.
Qed.

(** Rounding a positive quotient of integers below [2^53] does not cross
    an integer. *)
Lemma nearest_ceiling (n : Z) (d : positive) :
  0 < n < 2 ^ 53 -> Z.pos d < 2 ^ 53 ->
  exists r, nearest (n # d) = JFin r
            /\ Qceiling r = Qceiling (n # d) /\ 0 < Qnum r.
Proof.
  intros Hn Hd.
  set (k := Qceiling (n # d)).
  assert (Hk : (k - 1) * Z.pos d < n <= k * Z.pos d).
  { pose proof (Qle_ceiling (n # d)) as U. pose proof (Qceiling_lt (n # d)) as L.
    fold k in U, L. unfold Qle, Qlt in U, L. cbn [Qnum Qden inject_Z] in U, L.
    lia. }
  assert (Hk1 : 1 <= k) by nia.
  destruct (ilog2_bounds n (Z.pos d) Hn ltac:(lia)) as (BL & BN & BD).
  unfold nearest. cbn [Qnum Qden].
  replace (n <? 0) with false by (symmetry; apply Z.ltb_ge; lia).
  rewrite (Z.abs_eq n) by lia.
  set (L := ilog2 n (Z.pos d)) in *.
  replace (Z.max (-1074) (L - 52)) with (L - 52) by lia.
  set (e := L - 52).
  assert (He : -1074 <= e <= 0) by (unfold e; lia).
  set (P := 2 ^ (- e)).
  assert (HP : 0 < P) by (apply Z.pow_pos_nonneg; lia).
  assert (HDP : Z.pos d < 2 * P).
  { unfold P. rewrite <- Z.pow_succ_r by lia.
    replace (Z.succ (- e)) with (53 - L) by (unfold e; lia). exact BD. }
  set (m := nearest_integer (n * P) (Z.pos d)).
  pose proof (nearest_integer_between n (Z.pos d) P k ltac:(lia) HP Hk HDP) as Hm.
  fold m in Hm.
  assert (Hm53 : m <= 2 ^ 53).
  { pose proof (nearest_integer_le (n * P) (Z.pos d)) as Hle. fold m in Hle.
    assert (n * P / Z.pos d < 2 ^ 53).
    { apply Z.div_lt_upper_bound; [lia|].
      unfold P. replace (- e) with (52 - L) by (unfold e; lia). exact BN. }
    lia. }
  assert (Hm0 : 0 < m).
  { assert (0 <= (k - 1) * P) by (apply Z.mul_nonneg_nonneg; lia). lia. }
  assert (Em : (if 0 <=? e then nearest_integer n (Z.pos d * 2 ^ e) else m) = m).
  { destruct (Z.leb_spec 0 e) as [H|H]; [|reflexivity].
    assert (E0 : e = 0) by lia. unfold m, P. rewrite E0. change (- 0) with 0.
    rewrite Z.pow_0_r, !Z.mul_1_r. reflexivity. }
  rewrite Em.
  destruct (Z.eqb_spec m 0) as [Hz|_]; [lia|].
  rewrite (fits_scale2 m e) by lia.
  exists (scale2 m e). split; [reflexivity|].
  pose proof (scale2_eq m e ltac:(lia)) as Er. fold P in Er.
  split.
  - rewrite (Qceiling_comp _ _ Er).
    unfold Qceiling, Qfloor, Qopp. cbn [Qnum Qden]. rewrite Z2Pos.id by exact HP.
    assert (E : - k = - m / P).
    { apply Z.div_unique with (r := k * P - m); lia. }
    lia.
  - unfold Qeq in Er. cbn [Qnum Qden] in Er.
    rewrite Z2Pos.id in Er by exact HP.
    assert (0 < m * Z.pos (Qden (scale2 m e))) by (apply Z.mul_pos_pos; lia).
    nia.
Qed.

(** [Math.ceil(a / b)] is the integer ceiling of the quotient for integers
    below [2^53]. *)
Lemma ceil_div_of_Z (a b : Z) :
  0 <= a < 2 ^ 53 -> 0 < b < 2 ^ 53 ->
  ceil (div (of_Z a) (of_Z b)) = of_Z ((a + b - 1) / b).
Proof.
  intros Ha Hb.
  assert (Hc : forall r, 0 < Qnum r -> Qceiling r = (a + b - 1) / b ->
                         ceil (JFin r) = of_Z ((a + b - 1) / b)).
  { intros r Hr E. unfold ceil.
    replace (Qnum r <? 0) with false by (symmetry; apply Z.ltb_ge; lia).
    rewrite andb_false_r, E. reflexivity. }
  destruct b as [|pb|pb]; try lia.
  assert (Eq : Qceiling (a # pb) = (a + Z.pos pb - 1) / Z.pos pb).
  { unfold Qceiling, Qfloor, Qopp. cbn [Qnum Qden].
    pose proof (Z.div_mod (- a) (Z.pos pb) ltac:(lia)) as E1.
    pose proof (Z.mod_pos_bound (- a) (Z.pos pb) ltac:(lia)) as B1.
    apply Z.div_unique with (r := Z.pos pb - 1 - (- a) mod Z.pos pb); [lia|].
    set (q := - a / Z.pos pb) in *. set (m := - a mod Z.pos pb) in *. lia. }
  change (div (of_Z a) (of_Z (Z.pos pb)))
    with (round (xorb (a <? 0) false) (inject_Z a / inject_Z (Z.pos pb))).
  replace (a <? 0) with false by (symmetry; apply Z.ltb_ge; lia).
  change (inject_Z a / inject_Z (Z.pos pb))%Q with (a * 1 # pb).
  rewrite Z.mul_1_r. unfold round. cbn [Qnum xorb].
  destruct (Z.eqb_spec a 0) as [->|Hz].
  - rewrite Z.div_small by lia. reflexivity.
  - destruct (fits (Qred (a # pb))) eqn:F.
    + apply Hc.
      * pose proof (Qred_correct (a # pb)) as E. unfold Qeq in E.
        cbn [Qnum Qden] in E.
        assert (0 < a * Z.pos (Qden (Qred (a # pb)))) by (apply Z.mul_pos_pos; lia).
        nia.
      * rewrite (Qceiling_comp _ _ (Qred_correct _)). exact Eq.
    + destruct (nearest_ceiling a pb ltac:(lia) ltac:(lia)) as (r & -> & Hr & Hp).
      apply Hc; [exact Hp | rewrite Hr; exact Eq].
Qed.

(** Roundings, overflow and signed zeros at work. *)
Example binary64_examples :
  StringToNumber "9007199254740993" = of_Z 9007199254740992
  /\ StringToNumber "1e400" = JInf false
  /\ StringToNumber "-0" = JNegZero
  /\ StringToNumber "0.30000000000000001" = StringToNumber "0.3"
  /\ mul (StringToNumber "0.1") (of_Z 3) = StringToNumber "0.30000000000000004"
  /\ ceil (div (of_Z 21) (StringToNumber "0.7")) = of_Z 31
  /\ div (of_Z 3) JNegZero = JInf true
  /\ mul (of_Z 0) (JInf false) = JNaN.
Proof.
  repeat split; vm_compute; reflexivity.
Qed.

Lemma mul_NaN_r (a : JsNum) : mul a JNaN = JNaN.
Proof. destruct a; reflexivity. Qed.

Lemma div_NaN_r (a : JsNum) : div a JNaN = JNaN.
Proof. destruct a; reflexivity. Qed.

Lemma truthy_Some (s : string) : s <> "" -> truthy (Some s) = true.
Proof.
  intros H. unfold truthy. apply String.eqb_neq in H. rewrite H. reflexivity.
Qed.

Lemma NaN_nonempty (s : string) : StringToNumber s = JNaN -> s <> "".
Proof. intros H ->. discriminate H. Qed.

End JsProps.

(* ================================================================== *)
(** ** The query engine: what is sent to the store *)

Module QueryProps.
Import Js Products JsProps.

Lemma strict_eq_false (x : option string) (lit : string) :
  x <> Some lit -> strict_eq x lit = false.
Proof.
  destruct x as [s|]; [|reflexivity]. intros H. cbn.
  apply String.eqb_neq. intros ->. apply H. reflexivity.
Qed.

Lemma sortOption_default (sort : option string) :
  sort <> Some "price_asc" -> sort <> Some "price_desc" ->
  sort <> Some "name_asc" -> sort <> Some "name_desc" ->
  sortOption sort = (createdAt, -1).
Proof.
  intros H1 H2 H3 H4. unfold sortOption.
  rewrite !strict_eq_false by assumption. reflexivity.
Qed.

(** The filter, clause by clause. *)
Lemma build_query_clauses (rq : ReqQuery.t) :
  Filter.isActive (build_query rq) = true
  /\ Filter.category (build_query rq) = clause (ReqQuery.category rq) (fun c => c)
  /\ Filter.brand (build_query rq)
     = clause (ReqQuery.brand rq)
         (fun b => {| Filter.pattern := b; Filter.options := "i" |})
  /\ Filter.lower (build_query rq) = clause (ReqQuery.minPrice rq) StringToNumber
  /\ Filter.upper (build_query rq) = clause (ReqQuery.maxPrice rq) StringToNumber
  /\ Filter.text (build_query rq) = clause (ReqQuery.search rq) (fun s => s).
Proof.
  destruct rq as [pg lm cat br se so mn mx].
  unfold build_query, clause; cbn.
  destruct (truthy cat), (truthy br), (truthy mn), (truthy mx), (truthy se);
    cbn; repeat split.
Qed.

(** The response depends on the request only through the filter, the sort
    specification and the destructured [page] and [limit]. *)
Lemma getProducts_ext (S : Store) (rq rq' : ReqQuery.t) :
  build_query rq = build_query rq' ->
  sortOption (ReqQuery.sort rq) = sortOption (ReqQuery.sort rq') ->
  ReqQuery.page rq = ReqQuery.page rq' ->
  ReqQuery.limit rq = ReqQuery.limit rq' ->
  getProducts S rq = getProducts S rq'.
Proof.
  intros Hq Hs Hp Hl.
  unfold getProducts, limit_arg, skip_arg, page, limit.
  rewrite Hq, Hs, Hp, Hl. reflexivity.
Qed.

(** C2: the four sort tokens resolve to their field and direction; any other
    value of [sort], an absent one included, resolves to [createdAt]
    descending, and the listing is then the one served without [sort]. *)
Theorem sort_tokens_resolve :
  sortOption (Some "price_asc") = (price, 1)
  /\ sortOption (Some "price_desc") = (price, -1)
  /\ sortOption (Some "name_asc") = (name, 1)
  /\ sortOption (Some "name_desc") = (name, -1)
  /\ forall sort,
       sort <> Some "price_asc" -> sort <> Some "price_desc" ->
       sort <> Some "name_asc" -> sort <> Some "name_desc" ->
       sortOption sort = (createdAt, -1)
       /\ forall S rq, getProducts S (ReqQuery.with_sort sort rq)
                       = getProducts S (ReqQuery.with_sort None rq).
Proof.
  repeat (split; [reflexivity|]).
  intros sort H1 H2 H3 H4. split.
  - apply sortOption_default; assumption.
  - intros S rq. apply getProducts_ext; try reflexivity.
    cbn [ReqQuery.sort ReqQuery.with_sort].
    rewrite sortOption_default by assumption. reflexivity.
Qed.

Lemma sort_tokens_resolve_witness :
  sortOption (Some "newest") = (createdAt, -1)
  /\ sortOption None = (createdAt, -1).
Proof.
  split.
  - apply (proj2 (proj2 (proj2 (proj2 sort_tokens_resolve))) (Some "newest"));
      discriminate.
  - apply (proj2 (proj2 (proj2 (proj2 sort_tokens_resolve))) None);
      discriminate.
Defined.

(** C10: a parameter equal to the empty string is handled as an absent one:
    no clause is added for [category], [brand], [search], [minPrice] or
    [maxPrice], the default sort applies, and the response is the one of the
    request without the parameter. *)
Theorem empty_string_is_absent (rq : ReqQuery.t) :
  (Filter.category (build_query (ReqQuery.with_category (Some "") rq)) = None
   /\ Filter.brand (build_query (ReqQuery.with_brand (Some "") rq)) = None
   /\ Filter.text (build_query (ReqQuery.with_search (Some "") rq)) = None
   /\ Filter.lower (build_query (ReqQuery.with_minPrice (Some "") rq)) = None
   /\ Filter.upper (build_query (ReqQuery.with_maxPrice (Some "") rq)) = None
   /\ sortOption (ReqQuery.sort (ReqQuery.with_sort (Some "") rq)) = (createdAt, -1))
  /\ forall S,
       getProducts S (ReqQuery.with_category (Some "") rq)
         = getProducts S (ReqQuery.with_category None rq)
       /\ getProducts S (ReqQuery.with_brand (Some "") rq)
          = getProducts S (ReqQuery.with_brand None rq)
       /\ getProducts S (ReqQuery.with_search (Some "") rq)
          = getProducts S (ReqQuery.with_search None rq)
       /\ getProducts S (ReqQuery.with_minPrice (Some "") rq)
          = getProducts S (ReqQuery.with_minPrice None rq)
       /\ getProducts S (ReqQuery.with_maxPrice (Some "") rq)
          = getProducts S (ReqQuery.with_maxPrice None rq)
       /\ getProducts S (ReqQuery.with_sort (Some "") rq)
          = getProducts S (ReqQuery.with_sort None rq).
Proof.
  destruct rq as [pg lm cat br se so mn mx].
  split.
  - unfold build_query; cbn.
    repeat split.
    + destruct (truthy br), (truthy mn || truthy mx), (truthy se); reflexivity.
    + destruct (truthy cat), (truthy mn || truthy mx), (truthy se); reflexivity.
    + destruct (truthy cat), (truthy br), (truthy mn || truthy mx); reflexivity.
    + destruct (truthy cat), (truthy br), (truthy mx), (truthy se); reflexivity.
    + destruct (truthy cat), (truthy br), (truthy mn), (truthy se); reflexivity.
  - intros S. repeat split; apply getProducts_ext; reflexivity.
Qed.

(** C3 (as amended): an absent [page] is read as 1 and an absent [limit] as
    10, each whatever the other parameter is, and the skip is then 0 for a
    limit that is absent or a non-negative integer.  A [page] or [limit] that
    is present is only converted to a number: whatever its string denotes,
    zero, negative, fractional, arbitrarily large, infinite or [NaN], is the
    limit handed to the store and the page reported; nothing is clamped. *)
Theorem page_and_limit_defaults_only (rq : ReqQuery.t) :
  (ReqQuery.page rq = None -> ToNumber (page rq) = of_Z 1)
  /\ (ReqQuery.limit rq = None -> limit_arg rq = of_Z 10)
  /\ (forall l, ReqQuery.page rq = None -> ToNumber (limit rq) = of_Z l -> 0 <= l ->
        skip_arg rq = of_Z 0)
  /\ (forall s, ReqQuery.limit rq = Some s -> limit_arg rq = StringToNumber s)
  /\ (forall s, ReqQuery.page rq = Some s -> ToNumber (page rq) = StringToNumber s).
Proof.
  unfold limit_arg, skip_arg, page, limit. repeat split.
  - intros ->. reflexivity.
  - intros ->. reflexivity.
  - intros l -> Hl Hl0. cbn [or_default ToNumber]. rewrite Hl.
    rewrite sub_of_Z by (cbn; lia).
    change (1 - 1) with 0. rewrite mul_of_Z by (cbn; lia). reflexivity.
  - intros s ->. cbn [or_default ToNumber]. apply mul_one, StringToNumber_valid.
  - intros s ->. reflexivity.
Qed.

Lemma page_and_limit_defaults_only_witness :
  skip_arg (Samples.with_limit "25") = of_Z 0
  /\ limit_arg (Samples.with_limit "1e400") = JInf false
  /\ limit_arg (Samples.with_limit "2.5") = JFin (5 # 2).
Proof.
  split; [|split].
  - apply (proj1 (proj2 (proj2 (page_and_limit_defaults_only (Samples.with_limit "25"))))
             25); [reflexivity | reflexivity | lia].
  - apply (proj1 (proj2 (proj2 (proj2
             (page_and_limit_defaults_only (Samples.with_limit "1e400")))))
             "1e400" eq_refl).
  - apply (proj1 (proj2 (proj2 (proj2
             (page_and_limit_defaults_only (Samples.with_limit "2.5")))))
             "2.5" eq_refl).
Defined.

(** C3 fails as stated: a limit of 0 stays 0, a negative limit stays
    negative, neither becomes the default 10, and a large limit meets no
    ceiling. *)
Lemma limit_zero_and_negative_not_defaulted :
  limit_arg (Samples.with_limit "0") = of_Z 0
  /\ limit_arg (Samples.with_limit "-5") = of_Z (-5)
  /\ limit_arg (Samples.with_limit "0") <> of_Z 10
  /\ limit_arg (Samples.with_limit "-5") <> of_Z 10
  /\ limit_arg (Samples.with_limit "1000000000") = of_Z 1000000000.
Proof.
  split; [reflexivity|]. split; [reflexivity|].
  split; [discriminate|]. split; [discriminate | reflexivity].
Qed.

(** What the controller answers, by the outcome of its two store calls: the
    listing the store returned, with the pagination computed from the count,
    or the 500 of the [catch] block when a call threw. *)
Lemma getProducts_outcome (S : Store) (rq : ReqQuery.t) :
  (forall data n,
      find S (build_query rq) (sortOption (ReqQuery.sort rq))
        (limit_arg rq) (skip_arg rq) = Resolved data ->
      countDocuments S (build_query rq) = Resolved n ->
      getProducts S rq
      = Listing data
          {| total := n;
             page_no := ToNumber (page rq);
             pages := ceil (div (of_nat n) (ToNumber (limit rq))) |})
  /\ (forall st m,
        getProducts S rq = Failure st m ->
        st = 500
        /\ m = "Server error"
        /\ (find S (build_query rq) (sortOption (ReqQuery.sort rq))
              (limit_arg rq) (skip_arg rq) = Rejected
            \/ countDocuments S (build_query rq) = Rejected)).
Proof.
  unfold getProducts. split.
  - intros data n -> ->. reflexivity.
  - intros st m.
    destruct (find S _ _ _ _); [|intros [= <- <-]; auto].
    destruct (countDocuments S _); [discriminate | intros [= <- <-]; auto].
Qed.

(** C9 (as amended): a numeric parameter that is present but does not denote
    a number is neither refused by the controller nor dropped nor replaced by
    a default.  [Number] turns it into [NaN], which becomes the [$gte] or
    [$lte] bound of the price clause, or the [limit] and [skip] handed to the
    store.  The answer is then the store's: when both store calls resolve,
    the response is the listing found, reporting [pages = NaN] for such a
    [limit] and [page = NaN] for such a [page]; the only failure the
    controller answers is the 500 given when a store call threw. *)
Theorem malformed_numbers_become_NaN (rq : ReqQuery.t) (s : string) :
  StringToNumber s = JNaN ->
  (ReqQuery.minPrice rq = Some s -> Filter.lower (build_query rq) = Some JNaN)
  /\ (ReqQuery.maxPrice rq = Some s -> Filter.upper (build_query rq) = Some JNaN)
  /\ (ReqQuery.limit rq = Some s -> limit_arg rq = JNaN /\ skip_arg rq = JNaN)
  /\ (ReqQuery.page rq = Some s -> ToNumber (page rq) = JNaN /\ skip_arg rq = JNaN)
  /\ forall S : Store,
       (forall data n,
           find S (build_query rq) (sortOption (ReqQuery.sort rq))
             (limit_arg rq) (skip_arg rq) = Resolved data ->
           countDocuments S (build_query rq) = Resolved n ->
           getProducts S rq
           = Listing data
               {| total := n;
                  page_no := ToNumber (page rq);
                  pages := ceil (div (of_nat n) (ToNumber (limit rq))) |}
           /\ (ReqQuery.limit rq = Some s ->
                 ceil (div (of_nat n) (ToNumber (limit rq))) = JNaN))
       /\ (forall st m,
             getProducts S rq = Failure st m ->
             st = 500
             /\ (find S (build_query rq) (sortOption (ReqQuery.sort rq))
                   (limit_arg rq) (skip_arg rq) = Rejected
                 \/ countDocuments S (build_query rq) = Rejected)).
Proof.
  intros Hn. pose proof (truthy_Some s (NaN_nonempty s Hn)) as Ht.
  assert (El : ReqQuery.limit rq = Some s -> ToNumber (limit rq) = JNaN)
    by (intros Hl; unfold limit; rewrite Hl; exact Hn).
  assert (Ep : ReqQuery.page rq = Some s -> ToNumber (page rq) = JNaN)
    by (intros Hp; unfold page; rewrite Hp; exact Hn).
  split; [|split; [|split; [|split]]].
  - destruct (build_query_clauses rq) as (_ & _ & _ & Hlo & _).
    intros Hm. rewrite Hlo, Hm. unfold clause. rewrite Ht. cbn [str]. rewrite Hn.
    reflexivity.
  - destruct (build_query_clauses rq) as (_ & _ & _ & _ & Hup & _).
    intros Hm. rewrite Hup, Hm. unfold clause. rewrite Ht. cbn [str]. rewrite Hn.
    reflexivity.
  - intros Hl. unfold limit_arg, skip_arg. rewrite (El Hl).
    split; [reflexivity | apply mul_NaN_r].
  - intros Hp. unfold skip_arg. rewrite (Ep Hp). split; reflexivity.
  - intros S. destruct (getProducts_outcome S rq) as [Hok Hko]. split.
    + intros data n Hf Hc. split; [exact (Hok data n Hf Hc)|].
      intros Hl. rewrite (El Hl), div_NaN_r. reflexivity.
    + intros st m H. destruct (Hko st m H) as (H1 & _ & H2). auto.
Qed.

Lemma malformed_numbers_become_NaN_witness :
  Filter.lower (build_query (Samples.with_minPrice "abc")) = Some JNaN
  /\ limit_arg (Samples.with_limit "abc") = JNaN
  /\ getProducts Samples.resolving (Samples.with_limit "abc")
     = Listing [Samples.socks] {| total := 1; page_no := of_Z 1; pages := JNaN |}.
Proof.
  split; [|split].
  - apply (proj1 (malformed_numbers_become_NaN (Samples.with_minPrice "abc") "abc" eq_refl)).
    reflexivity.
  - apply (proj1 (proj2 (proj2
             (malformed_numbers_become_NaN (Samples.with_limit "abc") "abc" eq_refl)))).
    reflexivity.
  - apply (proj1 (proj2 (proj2 (proj2 (proj2
             (malformed_numbers_become_NaN (Samples.with_limit "abc") "abc" eq_refl))))
             Samples.resolving) [Samples.socks] 1%nat eq_refl eq_refl).
Defined.

(** C9 fails as stated: with [minPrice=abc] the filter is not the one built
    without [minPrice], and with [limit=abc] the limit is not the default. *)
Lemma malformed_number_not_treated_as_absent :
  build_query (Samples.with_minPrice "abc") <> build_query ReqQuery.empty
  /\ Filter.price (build_query (Samples.with_minPrice "abc"))
     = Some {| Filter.gte := Some JNaN; Filter.lte := None |}
  /\ Filter.price (build_query ReqQuery.empty) = None
  /\ limit_arg (Samples.with_limit "abc") = JNaN
  /\ limit_arg ReqQuery.empty = of_Z 10.
Proof.
  repeat split; try reflexivity. discriminate.
Qed.

End QueryProps.

(* ================================================================== *)
(** ** The query engine over the catalog store *)

Module ListingProps.
Import Js Products Catalog JsProps QueryProps.

(** *** Cursor arguments *)

Lemma as_count_of_Z (n : Z) :
  0 <= n < 2 ^ 63 -> as_count (of_Z n) = Some (Z.to_nat n).
Proof.
  intros H. unfold as_count, of_Z, inject_Z. cbn [Qnum Qden].
  destruct (Z.leb_spec 0 n); [|lia].
  destruct (Z.ltb_spec n (2 ^ 63)); [reflexivity | lia].
Qed.

Lemma take_length (l : nat) (xs : list Product.t) :
  (0 < l)%nat -> take l xs = firstn l xs /\ (List.length (take l xs) <= l)%nat.
Proof.
  intros H. destruct l as [|l]; [lia|]. split; [reflexivity|].
  cbn [take]. apply firstn_le_length.
Qed.

(** For a page and a limit that are integers from 1 on, the limit and the
    skip handed to the store are [limit] and [(page - 1) * limit]. *)
Lemma page_arguments (rq : ReqQuery.t) (p l : Z) :
  ToNumber (page rq) = of_Z p ->
  ToNumber (limit rq) = of_Z l ->
  1 <= p -> 1 <= l -> p * l < 2 ^ 53 ->
  limit_arg rq = of_Z l /\ skip_arg rq = of_Z ((p - 1) * l).
Proof.
  intros Hp Hl Hp1 Hl1 Hb.
  assert (B : l < 2 ^ 53 /\ p < 2 ^ 53 /\ 0 <= (p - 1) * l < 2 ^ 53) by nia.
  unfold limit_arg, skip_arg. rewrite Hp, Hl. split.
  - rewrite mul_of_Z by lia. f_equal. lia.
  - rewrite sub_of_Z by lia. rewrite mul_of_Z by lia. reflexivity.
Qed.

(** *** [order] arranges *)

Lemma sortOption_direction (sort : option string) : direction (sortOption sort).
Proof.
  unfold direction, sortOption.
  destruct (strict_eq sort "name_desc"), (strict_eq sort "name_asc"),
    (strict_eq sort "price_desc"), (strict_eq sort "price_asc"); cbn; auto.
Qed.

Lemma key_compare_antisym (f : sort_field) (x y : Product.t) :
  key_compare f y x = CompOpp (key_compare f x y).
Proof.
  destruct f; cbn.
  - apply Z.compare_antisym.
  - symmetry. apply Qcompare_antisym.
  - apply String.compare_antisym.
Qed.

Lemma in_order_total (so : sort_option) (x y : Product.t) :
  direction so -> in_order so x y = false -> in_order so y x = true.
Proof.
  destruct so as [f d]. unfold direction, in_order. cbn [fst snd]. intros Hd.
  rewrite (key_compare_antisym f x y).
  destruct (key_compare f x y), Hd as [-> | ->]; cbn; congruence.
Qed.

Lemma insert_HdRel (so : sort_option) (a x : Product.t) (l : list Product.t) :
  HdRel (fun u v => in_order so u v = true) a l ->
  in_order so a x = true ->
  HdRel (fun u v => in_order so u v = true) a (insert so x l).
Proof.
  intros Hl Hx. destruct l as [|y t]; cbn.
  - constructor. exact Hx.
  - destruct (in_order so x y); constructor; [exact Hx|].
    inversion Hl; assumption.
Qed.

Lemma insert_Sorted (so : sort_option) (x : Product.t) (s : list Product.t) :
  direction so ->
  Sorted (fun u v => in_order so u v = true) s ->
  Sorted (fun u v => in_order so u v = true) (insert so x s).
Proof.
  intros Hd. induction s as [|y s IHs]; cbn [insert]; intros Hs.
  - repeat constructor.
  - destruct (in_order so x y) eqn:E.
    + constructor; [exact Hs | constructor; exact E].
    + inversion Hs as [|? ? Hs' Hhd]; subst. constructor.
      * apply IHs. exact Hs'.
      * apply insert_HdRel; [exact Hhd | apply in_order_total; assumption].
Qed.

Lemma order_Sorted (so : sort_option) (l : list Product.t) :
  direction so -> Sorted (fun u v => in_order so u v = true) (order so l).
Proof.
  intros Hd. induction l as [|x t IH]; [constructor|].
  apply (insert_Sorted so x (order so t) Hd). exact IH.
Qed.

Lemma insert_Permutation (so : sort_option) (x : Product.t) (l : list Product.t) :
  Permutation (insert so x l) (x :: l).
Proof.
  induction l as [|y t IH]; cbn; [reflexivity|].
  destruct (in_order so x y); [reflexivity|].
  rewrite IH. apply perm_swap.
Qed.

Lemma order_Permutation (so : sort_option) (l : list Product.t) :
  Permutation (order so l) l.
Proof.
  induction l as [|x t IH]; cbn; [reflexivity|].
  rewrite insert_Permutation, IH. reflexivity.
Qed.

Lemma order_arranged (so : sort_option) (sel : list Product.t) :
  direction so -> arranged so sel (order so sel).
Proof.
  intros Hd. split; [apply order_Permutation | apply order_Sorted; exact Hd].
Qed.

(** The store built on [order] serves its collection, steadily. *)
Lemma store_serves (text : string -> list string -> bool)
    (regex : Filter.regex -> option (string -> bool)) (db : list Product.t) :
  serves text regex db (store text regex db).
Proof.
  split.
  - intros q so l k sel nl nk Hd Hs Hl Hk. exists (order so sel).
    split; [apply order_arranged; exact Hd|].
    cbn. unfold find. rewrite Hs, Hl, Hk. reflexivity.
  - intros q sel Hs. cbn. unfold countDocuments. rewrite Hs. reflexivity.
Qed.

Lemma store_steady (text : string -> list string -> bool)
    (regex : Filter.regex -> option (string -> bool)) (db : list Product.t) :
  steady text regex db (store text regex db).
Proof.
  intros q so sel Hd Hs. exists (order so sel).
  split; [apply order_arranged; exact Hd|].
  intros l k nl nk Hl Hk. cbn. unfold find. rewrite Hs, Hl, Hk. reflexivity.
Qed.

(** *** What a serving store makes of a request *)

Section Served.

Variable text : string -> list string -> bool.
Variable regex : Filter.regex -> option (string -> bool).
Variable db : list Product.t.
Variable S : Store.
Hypothesis served : serves text regex db S.

(** The listing of a request whose filter the store accepts and whose limit
    and skip are non-negative integers. *)
Lemma served_listing (rq : ReqQuery.t) (sel : list Product.t) (nl nk : nat) :
  select text regex db (build_query rq) = Some sel ->
  as_count (limit_arg rq) = Some nl ->
  as_count (skip_arg rq) = Some nk ->
  exists sorted,
    arranged (sortOption (ReqQuery.sort rq)) sel sorted
    /\ getProducts S rq
       = Listing (take nl (skipn nk sorted))
           {| total := List.length sel;
              page_no := ToNumber (page rq);
              pages := ceil (div (of_nat (List.length sel)) (ToNumber (limit rq))) |}.
Proof.
  destruct served as [Hfind Hcount]. intros Hsel Hl Hk.
  destruct (Hfind _ (sortOption (ReqQuery.sort rq)) _ _ sel nl nk
              (sortOption_direction _) Hsel Hl Hk) as (sorted & Harr & Hf).
  exists sorted. split; [exact Harr|].
  apply (proj1 (getProducts_outcome S rq)); [exact Hf | apply Hcount; exact Hsel].
Qed.

(** The page of a request with an integer page and limit from 1 on. *)
Lemma served_page (rq : ReqQuery.t) (p l : Z) (sel : list Product.t) :
  ToNumber (page rq) = of_Z p ->
  ToNumber (limit rq) = of_Z l ->
  1 <= p -> 1 <= l -> p * l < 2 ^ 53 ->
  Z.of_nat (List.length sel) < 2 ^ 53 ->
  select text regex db (build_query rq) = Some sel ->
  exists sorted,
    arranged (sortOption (ReqQuery.sort rq)) sel sorted
    /\ getProducts S rq
       = Listing (firstn (Z.to_nat l) (skipn (Z.to_nat ((p - 1) * l)) sorted))
           {| total := List.length sel;
              page_no := of_Z p;
              pages := of_Z ((Z.of_nat (List.length sel) + l - 1) / l) |}.
Proof.
  intros Hp Hl Hp1 Hl1 Hb Hn Hsel.
  destruct (page_arguments rq p l Hp Hl Hp1 Hl1 Hb) as [Hla Hsk].
  assert (B : l < 2 ^ 53 /\ 0 <= (p - 1) * l) by nia.
  destruct (served_listing rq sel (Z.to_nat l) (Z.to_nat ((p - 1) * l)) Hsel)
    as (sorted & Harr & Hg).
  - rewrite Hla. apply as_count_of_Z. lia.
  - rewrite Hsk. apply as_count_of_Z. lia.
  - exists sorted. split; [exact Harr|]. rewrite Hg, Hp, Hl.
    rewrite of_nat_of_Z by lia. rewrite ceil_div_of_Z by lia.
    destruct (take_length (Z.to_nat l)
                (skipn (Z.to_nat ((p - 1) * l)) sorted) ltac:(lia)) as [-> _].
    reflexivity.
Qed.

End Served.

(** C4 (as amended): when the store accepts the filter and [page] and
    [limit] denote integers that are at least 1 (or are absent), with
    [page * limit] and the number of matching records below [2^53], the
    response carries the matching records, in an arrangement by the resolved
    sort field and direction, from offset [(page - 1) * limit], at most
    [limit] of them, with [pages = ceil(total / limit)]. *)
Theorem listing_is_the_requested_page
    (text : string -> list string -> bool)
    (regex : Filter.regex -> option (string -> bool))
    (db : list Product.t) (S : Store)
    (rq : ReqQuery.t) (p l : Z) (sel : list Product.t) :
  serves text regex db S ->
  ToNumber (page rq) = of_Z p ->
  ToNumber (limit rq) = of_Z l ->
  1 <= p -> 1 <= l -> p * l < 2 ^ 53 ->
  Z.of_nat (List.length sel) < 2 ^ 53 ->
  select text regex db (build_query rq) = Some sel ->
  exists sorted,
    Permutation sorted sel
    /\ Sorted (fun u v => in_order (sortOption (ReqQuery.sort rq)) u v = true) sorted
    /\ getProducts S rq
       = Listing (firstn (Z.to_nat l) (skipn (Z.to_nat ((p - 1) * l)) sorted))
           {| total := List.length sel;
              page_no := of_Z p;
              pages := of_Z ((Z.of_nat (List.length sel) + l - 1) / l) |}
    /\ (List.length (firstn (Z.to_nat l) (skipn (Z.to_nat ((p - 1) * l)) sorted))
        <= Z.to_nat l)%nat.
Proof.
  intros Hs Hp Hl Hp1 Hl1 Hb Hn Hsel.
  destruct (served_page text regex db S Hs rq p l sel Hp Hl Hp1 Hl1 Hb Hn Hsel)
    as (sorted & [Hperm Hsort] & Hg).
  exists sorted. repeat split; try assumption.
  apply firstn_le_length.
Qed.

Lemma listing_is_the_requested_page_witness :
  exists sorted,
    Permutation sorted [Samples.shirt; Samples.scarf; Samples.socks]
    /\ Sorted (fun u v => in_order (price, 1) u v = true) sorted
    /\ getProducts (sample Samples.catalog) (Samples.paged "2" "2")
       = Listing (firstn 2 (skipn 2 sorted))
           {| total := 3; page_no := of_Z 2; pages := of_Z 2 |}
    /\ (List.length (firstn 2 (skipn 2 sorted)) <= 2)%nat.
Proof.
  apply (listing_is_the_requested_page no_text dots Samples.catalog
           (sample Samples.catalog) (Samples.paged "2" "2") 2 2
           [Samples.shirt; Samples.scarf; Samples.socks]
           (store_serves no_text dots Samples.catalog)
           eq_refl eq_refl ltac:(lia) ltac:(lia) ltac:(lia) ltac:(cbn; lia) eq_refl).
Defined.

(** C4 fails as stated: with [limit=0] the store applies no limit, so the
    listing succeeds and returns all three matching records, more than the
    limit, and [pages] is [ceil(3 / 0)], an infinity. *)
Lemma limit_zero_lists_everything :
  limit_arg (Samples.with_limit "0") = of_Z 0
  /\ skip_arg (Samples.with_limit "0") = of_Z 0
  /\ find no_text dots Samples.catalog (build_query (Samples.with_limit "0"))
       (sortOption None) (of_Z 0) (of_Z 0)
     = Some [Samples.socks; Samples.scarf; Samples.shirt]
  /\ getProducts (sample Samples.catalog) (Samples.with_limit "0")
     = Listing [Samples.socks; Samples.scarf; Samples.shirt]
         {| total := 3; page_no := of_Z 1; pages := JInf false |}
  /\ ~ (List.length [Samples.socks; Samples.scarf; Samples.shirt] <= 0)%nat.
Proof.
  repeat split; try reflexivity. cbn. lia.
Qed.

(** *** The filter, clause by clause *)

Lemma holds_clause {A : Type} (x : option string) (f : string -> A)
    (test : A -> bool) (P : string -> Prop) :
  (forall s, test (f s) = true <-> P s) ->
  holds (clause x f) test = true <-> (forall s, x = Some s -> s <> "" -> P s).
Proof.
  intros Hf. unfold clause, holds, truthy, str.
  destruct x as [s|]; [|split; [discriminate | reflexivity]].
  destruct (String.eqb_spec s "") as [->|Hne]; cbn.
  - split; [|reflexivity]. intros _ s [= <-] H. contradiction.
  - rewrite Hf. split.
    + intros H s' [= <-] _. exact H.
    + intros H. apply H; [reflexivity | exact Hne].
Qed.

Lemma le_NaN_r (a : JsNum) : le a JNaN = false.
Proof. destruct a; reflexivity. Qed.

(** A price bound: the store rejects the filter exactly when the bound is
    [NaN], and then no price satisfies it. *)
Lemma bound_clause (x : option string) (test : JsNum -> bool) :
  test JNaN = false ->
  match plan_bound (clause x StringToNumber) with
  | Some lo =>
      holds lo test = true
      <-> (forall s, x = Some s -> s <> "" -> test (StringToNumber s) = true)
  | None => ~ (forall s, x = Some s -> s <> "" -> test (StringToNumber s) = true)
  end.
Proof.
  intros Hnan.
  assert (E : plan_bound (clause x StringToNumber) = Some (clause x StringToNumber)
              \/ (plan_bound (clause x StringToNumber) = None
                  /\ exists s, x = Some s /\ s <> "" /\ StringToNumber s = JNaN)).
  { unfold clause, truthy, str. destruct x as [s|]; [|left; reflexivity].
    destruct (String.eqb_spec s "") as [->|Hne]; [left; reflexivity|]. cbn.
    destruct (StringToNumber s) eqn:N; try (left; reflexivity).
    right. split; [reflexivity|]. exists s. auto. }
  destruct E as [-> | [-> (s & Hx & Hne & N)]].
  - apply holds_clause. reflexivity.
  - intros H. specialize (H s Hx Hne). rewrite N, Hnan in H. discriminate H.
Qed.

(** The brand clause: the store rejects the filter exactly when the pattern
    does not compile, and then no brand matches it. *)
Lemma brand_clause (regex : Filter.regex -> option (string -> bool))
    (x : option string) (p : Product.t) :
  match plan_regex regex
          (clause x (fun b => {| Filter.pattern := b; Filter.options := "i" |})) with
  | Some re =>
      holds re (fun test => match Product.brand p with
                            | Some b => test b
                            | None => false
                            end) = true
      <-> (forall b, x = Some b -> b <> "" ->
             exists pb, Product.brand p = Some pb /\ brand_matches regex b pb)
  | None =>
      ~ (forall b, x = Some b -> b <> "" ->
           exists pb, Product.brand p = Some pb /\ brand_matches regex b pb)
  end.
Proof.
  unfold clause, truthy, str, brand_matches. destruct x as [b|]; cbn.
  - destruct (String.eqb_spec b "") as [->|Hne]; cbn.
    + split; [|reflexivity]. intros _ b' [= <-] H. contradiction.
    + destruct (regex {| Filter.pattern := b; Filter.options := "i" |})
        as [test|] eqn:R; cbn.
      * split.
        -- intros H b' [= <-] _. destruct (Product.brand p) as [pb|]; [|discriminate H].
           exists pb. split; [reflexivity|]. exists test. rewrite R. auto.
        -- intros H. destruct (H b eq_refl Hne) as (pb & -> & test' & R' & Ht).
           rewrite R in R'. injection R' as <-. exact Ht.
      * intros H. destruct (H b eq_refl Hne) as (pb & _ & test' & R' & _).
        rewrite R in R'. discriminate R'.
  - split; [discriminate | reflexivity].
Qed.

(** The filter accepts a record exactly when the record is active and
    every provided filter holds. *)
Lemma matches_eligible (text : string -> list string -> bool)
    (regex : Filter.regex -> option (string -> bool))
    (rq : ReqQuery.t) (p : Product.t) :
  matches text regex (build_query rq) p = Some true
  <-> eligible text (brand_matches regex) rq p.
Proof.
  destruct (build_query_clauses rq) as (Ha & Hc & Hbr & Hlo & Hup & Htx).
  unfold matches, plan_of. rewrite Ha, Hc, Hbr, Hlo, Hup, Htx.
  pose proof (brand_clause regex (ReqQuery.brand rq) p) as B.
  pose proof (bound_clause (ReqQuery.minPrice rq)
                (fun lo => le lo (JFin (Product.price p))) eq_refl) as L.
  pose proof (bound_clause (ReqQuery.maxPrice rq)
                (fun hi => le (JFin (Product.price p)) hi)
                (le_NaN_r _)) as U.
  unfold eligible.
  destruct (plan_regex regex _) as [re|];
    [|split; [discriminate | intros (_ & _ & H & _); contradiction]].
  destruct (plan_bound (clause (ReqQuery.minPrice rq) StringToNumber)) as [lo|];
    [|split; [discriminate | intros (_ & _ & _ & H & _); contradiction]].
  destruct (plan_bound (clause (ReqQuery.maxPrice rq) StringToNumber)) as [hi|];
    [|split; [discriminate | intros (_ & _ & _ & _ & H & _); contradiction]].
  cbn [option_map]. unfold accepts.
  cbn [active in_category brand_like at_least at_most text_query].
  rewrite <- B, <- L, <- U.
  rewrite <- (holds_clause (ReqQuery.category rq) (fun c => c)
                (String.eqb (Product.category p))
                (fun c => Product.category p = c))
    by (intros s; apply String.eqb_eq).
  rewrite <- (holds_clause (ReqQuery.search rq) (fun s => s)
                (fun s => text s (indexed_fields p))
                (fun s => text s (indexed_fields p) = true))
    by reflexivity.
  split.
  - intros [= H]. rewrite !andb_true_iff in H.
    destruct H as [[[[[H1 H2] H3] H4] H5] H6].
    apply Bool.eqb_prop in H1. auto 10.
  - intros (H1 & H2 & H3 & H4 & H5 & H6). f_equal.
    rewrite !andb_true_iff. rewrite H1. auto 10.
Qed.

(** Under an engine reading operator-free patterns as substring tests, a
    brand without operators is a case-insensitive substring test. *)
Lemma literal_brand (regex : Filter.regex -> option (string -> bool))
    (b pb : string) :
  literal_patterns regex -> plain b = true ->
  brand_matches regex b pb <-> occurs_ci b pb.
Proof.
  intros Hlit Hb. destruct (Hlit b Hb) as (test & R & Ht). unfold brand_matches.
  split.
  - intros (test' & R' & H). rewrite R in R'. injection R' as <-.
    apply Ht. exact H.
  - intros H. exists test. split; [exact R | apply Ht; exact H].
Qed.

(** *** The small engine reads literal patterns as substring tests *)

Lemma parse_plain (l : list ascii) :
  forallb (fun c => negb (is_meta c)) l = true ->
  parse_pattern l = Some (map Lit l).
Proof.
  induction l as [|c t IH]; [reflexivity|].
  cbn [forallb parse_pattern map]. intros H.
  apply andb_true_iff in H. destruct H as [Hc Ht].
  rewrite (IH Ht). apply negb_true_iff in Hc.
  destruct (Ascii.eqb_spec c ".") as [->|_]; [discriminate Hc|].
  rewrite Hc. reflexivity.
Qed.

Lemma match_here_literal (b s : list ascii) :
  match_here (map Lit b) s = true
  <-> exists v, map fold_case s = (map fold_case b ++ v)%list.
Proof.
  revert s. induction b as [|c b IH]; intros s; cbn [map match_here].
  - split; [intros _; exists (map fold_case s); reflexivity | reflexivity].
  - destruct s as [|d s]; cbn [map].
    + split; [discriminate | intros [v H]; discriminate H].
    + cbn [atom_matches]. rewrite andb_true_iff, Ascii.eqb_eq, IH. split.
      * intros [E [v H]]. exists v. cbn. rewrite E, H. reflexivity.
      * intros [v H]. cbn in H. injection H as E H. split; [auto | eauto].
Qed.

Lemma match_anywhere_literal (b s : list ascii) :
  match_anywhere (map Lit b) s = true
  <-> exists u v, map fold_case s = (u ++ map fold_case b ++ v)%list.
Proof.
  induction s as [|d s IH]; cbn [match_anywhere map];
    rewrite orb_true_iff, match_here_literal.
  - split.
    + intros [[v H]|H]; [exists [], v; exact H | discriminate H].
    + intros (u & v & H). left. destruct u; [|discriminate H]. exists v. exact H.
  - rewrite IH. split.
    + intros [[v H]|(u & v & H)].
      * exists [], v. exact H.
      * exists (fold_case d :: u), v. cbn. rewrite H. reflexivity.
    + intros (u & v & H). destruct u as [|x u].
      * left. exists v. exact H.
      * right. cbn in H. injection H as _ H. eauto.
Qed.

Lemma dots_literal : literal_patterns dots.
Proof.
  intros b Hb. unfold dots. cbn [Filter.options Filter.pattern String.eqb].
  change ("i" =? "i")%string with true. cbv iota.
  rewrite (parse_plain _ Hb). cbn [option_map].
  eexists. split; [reflexivity|].
  intros s. apply match_anywhere_literal.
Qed.

(** *** Listings hold active records only *)

Lemma select_active (text : string -> list string -> bool)
    (regex : Filter.regex -> option (string -> bool))
    (db : list Product.t) (rq : ReqQuery.t) (sel : list Product.t) (x : Product.t) :
  select text regex db (build_query rq) = Some sel ->
  In x sel -> In x db /\ Product.isActive x = true.
Proof.
  unfold select, plan_of.
  destruct (build_query_clauses rq) as (Ha & _). rewrite Ha.
  destruct (plan_regex regex (Filter.brand (build_query rq))),
    (plan_bound (Filter.lower (build_query rq))),
    (plan_bound (Filter.upper (build_query rq))); try discriminate.
  cbn [option_map]. intros [= <-] Hx. apply filter_In in Hx.
  destruct Hx as [Hdb Hx]. split; [exact Hdb|].
  unfold accepts in Hx. cbn [active] in Hx.
  rewrite !andb_true_iff in Hx. destruct Hx as [[[[[H _] _] _] _] _].
  apply Bool.eqb_prop in H. exact H.
Qed.

Lemma In_firstn_skipn (n : nat) (y : Product.t) (xs : list Product.t) :
  In y (firstn n xs) \/ In y (skipn n xs) -> In y xs.
Proof.
  intros H. rewrite <- (firstn_skipn n xs). apply in_or_app. exact H.
Qed.

Lemma In_take (l : nat) (y : Product.t) (xs : list Product.t) :
  In y (take l xs) -> In y xs.
Proof.
  destruct l; cbn [take]; [auto|].
  intros H. apply (In_firstn_skipn (S l)). left. exact H.
Qed.

(** C5 (as amended): the filter always demands [isActive = true], so it
    accepts only active records and no listing contains an inactive record,
    whatever the filters.  It composes the provided filters conjunctively:
    exact category, inclusive price bounds usable independently, text search
    over name, description and brand, and [brand] as the pattern of a
    case-insensitive regular expression.  When the brand contains no
    regular-expression operator this is a case-insensitive substring
    match. *)
Theorem filter_is_conjunction_of_provided_clauses
    (text : string -> list string -> bool)
    (regex : Filter.regex -> option (string -> bool))
    (rq : ReqQuery.t) (p : Product.t) :
  (Filter.isActive (build_query rq) = true
   /\ (matches text regex (build_query rq) p = Some true -> Product.isActive p = true)
   /\ forall db S sel nl nk data pg,
        serves text regex db S ->
        select text regex db (build_query rq) = Some sel ->
        as_count (limit_arg rq) = Some nl ->
        as_count (skip_arg rq) = Some nk ->
        getProducts S rq = Listing data pg ->
        forall x, In x data -> In x db /\ Product.isActive x = true)
  /\ (matches text regex (build_query rq) p = Some true
      <-> eligible text (brand_matches regex) rq p)
  /\ (literal_patterns regex ->
      (forall b, ReqQuery.brand rq = Some b -> plain b = true) ->
      (matches text regex (build_query rq) p = Some true
       <-> eligible text occurs_ci rq p)).
Proof.
  split; [split; [|split]|split].
  - apply build_query_clauses.
  - intros H. apply matches_eligible in H. apply H.
  - intros db S sel nl nk data pg Hs Hsel Hl Hk Hg x Hx.
    destruct (served_listing text regex db S Hs rq sel nl nk Hsel Hl Hk)
      as (sorted & [Hperm _] & Hg').
    rewrite Hg' in Hg. injection Hg as <- _.
    apply In_take in Hx.
    assert (Hs' : In x sorted) by (apply (In_firstn_skipn nk); right; exact Hx).
    apply (select_active text regex db rq sel x Hsel).
    apply (Permutation_in _ Hperm). exact Hs'.
  - apply matches_eligible.
  - intros Hlit Hb. rewrite matches_eligible. unfold eligible.
    split; intros (H1 & H2 & H3 & H4); (split; [exact H1|]);
      (split; [exact H2|]); (split; [|exact H4]);
      intros b Eb Hne; destruct (H3 b Eb Hne) as (pb & Hpb & Hm);
      exists pb; (split; [exact Hpb|]);
      apply (literal_brand regex b pb Hlit (Hb b Eb)); exact Hm.
Qed.

Lemma filter_is_conjunction_of_provided_clauses_witness :
  matches no_text dots (build_query (Samples.with_brand "AC")) Samples.scarf = Some true
  <-> eligible no_text occurs_ci (Samples.with_brand "AC") Samples.scarf.
Proof.
  apply (proj2 (proj2 (filter_is_conjunction_of_provided_clauses no_text dots
                         (Samples.with_brand "AC") Samples.scarf))).
  - exact dots_literal.
  - intros b [= <-]. reflexivity.
Defined.

Lemma abc_lacks_a_dot_c : ~ occurs_ci "a.c" "abc".
Proof.
  intros (u & v & H). vm_compute in H.
  destruct u as [|? [|? [|? [|? u]]]]; cbn in H; discriminate H.
Qed.

(** C5 fails as stated: [brand=a.c] accepts a record whose brand is [abc],
    which does not contain [a.c]; the listing returns it. *)
Lemma brand_is_a_pattern :
  matches no_text dots (build_query (Samples.with_brand "a.c")) Samples.shirt = Some true
  /\ Product.brand Samples.shirt = Some "abc"
  /\ ~ occurs_ci "a.c" "abc"
  /\ ~ eligible no_text occurs_ci (Samples.with_brand "a.c") Samples.shirt
  /\ getProducts (sample Samples.catalog) (Samples.with_brand "a.c")
     = Listing [Samples.shirt]
         {| total := 1; page_no := of_Z 1; pages := of_Z 1 |}.
Proof.
  split; [reflexivity|]. split; [reflexivity|]. split; [exact abc_lacks_a_dot_c|].
  split; [|reflexivity].
  intros (_ & _ & Hb & _).
  destruct (Hb "a.c" eq_refl ltac:(discriminate)) as (pb & [= <-] & H).
  exact (abc_lacks_a_dot_c H).
Qed.

End ListingProps.

(* ================================================================== *)
(** ** The token service: properties *)

Module TokenProps.
Import TokenService.

(** C6: a token issued for [u] and verified with the same secret before its
    expiry, one day after issuance, is accepted, and the Subject returned
    carries [userId = u]. *)
Theorem verify_issue
    (sign : string -> Subject -> string) (secret u : string) (issued now : Z) :
  now < issued + one_day ->
  exists subject,
    verify sign secret now (issue sign secret issued u) = inl subject
    /\ userId subject = u
    /\ issuedAt subject = issued
    /\ expiresAt subject = issued + one_day.
Proof.
  intros Hnow. unfold verify, issue.
  rewrite String.eqb_refl. cbn [negb expiresAt].
  destruct (Z.leb_spec (issued + one_day) now) as [H|_]; [lia|].
  eexists. split; [reflexivity|]. cbn. auto.
Qed.

Lemma verify_issue_witness :
  exists subject,
    verify tag_sign "your-secret-key" 90000 (issue tag_sign "your-secret-key" 5000 "u1")
      = inl subject
    /\ userId subject = "u1"
    /\ issuedAt subject = 5000
    /\ expiresAt subject = 5000 + one_day.
Proof.
  apply (verify_issue tag_sign "your-secret-key" "u1" 5000 90000). reflexivity.
Defined.

End TokenProps.

(* ================================================================== *)
(** ** The authorization gate: who gets through *)

Module GateProps.
Import Admin.

Lemma isAdmin_Next (findById : string -> lookup) (req req' : request) :
  snd (isAdmin findById req) = Next req' ->
  exists id u,
    subject_of req = Some id /\ findById id = Found u /\ role u = "admin"
    /\ req' = {| req_user := req_user req; currentUser := Some u |}.
Proof.
  unfold isAdmin, subject_of.
  destruct (req_user req) as [sub|]; [|discriminate].
  destruct (Js.truthy (userId sub)) eqn:T; cbn [negb]; [|discriminate].
  destruct (userId sub) as [id|]; [|discriminate T].
  destruct (findById id) as [u| |e] eqn:F; try discriminate.
  destruct (String.eqb_spec (role u) "admin") as [R|R]; cbn [negb]; [|discriminate].
  cbn. intros [= <-]. exists id, u. auto.
Qed.

(** X1: the gate calls [next()] only for an admin: if a request is passed
    on, a Subject was present, its record was found, the record's role is
    'admin', and that record is what the request carries on as
    [currentUser]. *)
Theorem isAdmin_passes_only_admins
    (findById : string -> lookup) (req req' : request) :
  snd (isAdmin findById req) = Next req' ->
  exists id u,
    subject_of req = Some id /\ findById id = Found u /\ role u = "admin"
    /\ req' = {| req_user := req_user req; currentUser := Some u |}.
Proof.
  exact (isAdmin_Next findById req req').
Qed.

Lemma isAdmin_passes_only_admins_witness :
  exists id u,
    subject_of (Samples.request_of "u1") = Some id
    /\ Samples.users id = Found u /\ role u = "admin"
    /\ {| req_user := req_user (Samples.request_of "u1");
          currentUser := Some Samples.alice |}
       = {| req_user := req_user (Samples.request_of "u1"); currentUser := Some u |}.
Proof.
  apply (isAdmin_passes_only_admins Samples.users (Samples.request_of "u1")).
  reflexivity.
Defined.

(** X2: every answer the gate gives itself is a refusal: the status is 401,
    403, 404 or 500 and the body has [success: false]; and the gate looks a
    user up at most once. *)
Theorem isAdmin_refusals (findById : string -> lookup) (req : request) :
  (forall status b,
      snd (isAdmin findById req) = Respond status b ->
      In status [401; 403; 404; 500] /\ success b = false)
  /\ (List.length
        (filter (fun e => match e with FindById _ => true | _ => false end)
                (fst (isAdmin findById req))) <= 1)%nat.
Proof.
  unfold isAdmin.
  destruct (req_user req) as [sub|].
  - destruct (negb (Js.truthy (userId sub))).
    + split; [|cbn; lia]. intros status b [= <- <-]. cbn. auto.
    + destruct (findById _) as [u| |e].
      * destruct (negb (String.eqb (role u) "admin")).
        -- split; [|cbn; lia]. intros status b [= <- <-]. cbn. auto.
        -- split; [|cbn; lia]. intros status b H. discriminate H.
      * split; [|cbn; lia]. intros status b [= <- <-]. cbn. auto.
      * split; [|cbn; lia]. intros status b [= <- <-]. cbn. auto 6.
  - split; [|cbn; lia]. intros status b [= <- <-]. cbn. auto.
Qed.

End GateProps.

(* ================================================================== *)
(** ** Product controllers: properties *)

Module CrudProps.
Import Crud.

Section Controllers.

Variable St : Type.
Variable create : St -> Json.object -> outcome document * St.
Variable findById : St -> string -> outcome (option document).
Variable findByIdAndUpdate : St -> string -> Json.object -> outcome (option document) * St.
Variable deleteOne : St -> document -> outcome unit * St.
Variable conforms : Joi.base -> list Joi.rule -> Json.t -> bool.
Variable render : Joi.error -> string.

Let createProduct := createProduct St create conforms render.
Let getProduct := getProduct St findById.
Let updateProduct := updateProduct St findByIdAndUpdate conforms render.
Let deleteProduct := deleteProduct St findById deleteOne.

(** X3: [getProduct] answers 200 exactly when the lookup resolves to a
    document, which it returns whether or not it is active; 404 exactly when
    the lookup resolves to nothing or throws an error of kind 'ObjectId'; and
    500 exactly when it throws any other error.  It never changes the
    collection. *)
Theorem getProduct_decision (st : St) (id : string) :
  (forall d, answer (getProduct st id) = Data 200 d
             <-> findById st id = Resolves (Some d))
  /\ (answer (getProduct st id) = Note 404 false "Product not found"
      <-> findById st id = Resolves None
          \/ exists e, findById st id = Throws e /\ kind e = Some "ObjectId")
  /\ (answer (getProduct st id) = Note 500 false "Server error"
      <-> exists e, findById st id = Throws e /\ kind e <> Some "ObjectId")
  /\ state (getProduct st id) = st.
Proof.
  unfold getProduct, Crud.getProduct.
  destruct (findById st id) as [[d|]|e]; cbn.
  - repeat split; try discriminate.
    + intros [= <-]. reflexivity.
    + intros [= <-]. reflexivity.
    + intros [H|(e & H & _)]; discriminate H.
    + intros (e & H & _). discriminate H.
  - repeat split; try discriminate; auto.
    intros (e & H & _). discriminate H.
  - assert (E : Js.strict_eq (kind e) "ObjectId" = true <-> kind e = Some "ObjectId").
    { unfold Js.strict_eq. destruct (kind e) as [k|].
      - rewrite String.eqb_eq. split; [intros ->; reflexivity | intros [= ->]; reflexivity].
      - split; discriminate. }
    destruct (Js.strict_eq (kind e) "ObjectId") eqn:K.
    + repeat split; try discriminate.
      * intros _. right. exists e. split; [reflexivity | apply E; reflexivity].
      * intros (e' & [= <-] & H). exfalso. apply H, E. reflexivity.
    + assert (N : kind e <> Some "ObjectId") by (intros H; apply E in H; discriminate H).
      repeat split; try discriminate.
      * intros [H|(e' & [= <-] & H)]; [discriminate H | contradiction].
      * intros _. exists e. auto.
Qed.

(** X4: an identifier that cannot be cast is a 404 for a read but a 500 for
    an update and for a delete: the three handlers answer the same 'ObjectId'
    error differently. *)
Theorem bad_id_is_404_on_read_500_on_write
    (st st' : St) (id : string) (body : Json.object) (e : js_error) :
  kind e = Some "ObjectId" ->
  findById st id = Throws e ->
  findByIdAndUpdate st id body = (Throws e, st') ->
  Joi.validate conforms Joi.updateProductSchema body = None ->
  answer (getProduct st id) = Note 404 false "Product not found"
  /\ answer (deleteProduct st id) = Note 500 false "Server error"
  /\ answer (updateProduct st id body) = Note 500 false "Server error".
Proof.
  intros K F U V.
  unfold getProduct, deleteProduct, updateProduct,
    Crud.getProduct, Crud.deleteProduct, Crud.updateProduct.
  rewrite F, U, V, K. cbn. auto.
Qed.

(** X5: a duplicate-key error (code 11000) is reported as 400 'SKU already
    exists' when it comes from a creation, but as 500 'Server error' when it
    comes from an update. *)
Theorem duplicate_sku_400_on_create_500_on_update
    (st st1 st2 : St) (id : string) (new patch : Json.object) (e : js_error) :
  code e = Some 11000 ->
  Joi.validate conforms Joi.productSchema new = None ->
  create st new = (Throws e, st1) ->
  Joi.validate conforms Joi.updateProductSchema patch = None ->
  findByIdAndUpdate st id patch = (Throws e, st2) ->
  answer (createProduct st new) = Note 400 false "SKU already exists"
  /\ answer (updateProduct st id patch) = Note 500 false "Server error".
Proof.
  intros C V1 E1 V2 E2.
  unfold createProduct, updateProduct, Crud.createProduct, Crud.updateProduct.
  rewrite V1, E1, V2, E2. unfold has_code. rewrite C. cbn. auto.
Qed.

(** X6: whatever the store does, each of the four handlers answers with one
    of the statuses 200, 201, 400, 404, 500; [success] is true exactly for
    200 and 201; and a 500 always carries the message 'Server error', never
    the error. *)
Theorem replies_are_uniform (st : St) (id : string) (body : Json.object) (r : reply) :
  r = answer (createProduct st body) \/ r = answer (getProduct st id)
  \/ r = answer (updateProduct st id body) \/ r = answer (deleteProduct st id) ->
  In (status_of r) [200; 201; 400; 404; 500]
  /\ (success_of r = true <-> status_of r = 200 \/ status_of r = 201)
  /\ (status_of r = 500 -> r = Note 500 false "Server error").
Proof.
  assert (Ok : forall s d, s = 200 \/ s = 201 ->
             In (status_of (Data s d)) [200; 201; 400; 404; 500]
             /\ (success_of (Data s d) = true
                 <-> status_of (Data s d) = 200 \/ status_of (Data s d) = 201)
             /\ (status_of (Data s d) = 500 -> Data s d = Note 500 false "Server error")).
  { intros s d [-> | ->]; cbn; repeat split; auto; intros; discriminate. }
  assert (No : forall s m, s = 400 \/ s = 404 \/ (s = 500 /\ m = "Server error") ->
             In (status_of (Note s false m)) [200; 201; 400; 404; 500]
             /\ (success_of (Note s false m) = true
                 <-> status_of (Note s false m) = 200 \/ status_of (Note s false m) = 201)
             /\ (status_of (Note s false m) = 500 ->
                 Note s false m = Note 500 false "Server error")).
  { intros s m [-> | [-> | [-> ->]]]; cbn; repeat split; auto 6;
      try discriminate; intros [H|H]; discriminate H. }
  unfold createProduct, getProduct, updateProduct, deleteProduct,
    Crud.createProduct, Crud.getProduct, Crud.updateProduct, Crud.deleteProduct.
  intros [-> | [-> | [-> | ->]]].
  - destruct (Joi.validate conforms Joi.productSchema body); [apply No; auto|].
    destruct (create st body) as [[d|e] st']; [apply Ok; auto|].
    destruct (has_code e 11000); apply No; auto.
  - destruct (findById st id) as [[d|]|e]; cbn; [apply Ok; auto | apply No; auto|].
    destruct (Js.strict_eq (kind e) "ObjectId"); apply No; auto.
  - destruct (Joi.validate conforms Joi.updateProductSchema body); [apply No; auto|].
    destruct (findByIdAndUpdate st id body) as [[[d|]|e] st'];
      [apply Ok; auto | apply No; auto | apply No; auto].
  - destruct (findById st id) as [[d|]|e]; cbn; [|apply No; auto | apply No; auto].
    destruct (deleteOne st d) as [[u|e] st']; cbn; [|apply No; auto].
    repeat split; auto; intros; discriminate.
Qed.

Lemma deleteProduct_success (st : St) (id : string) :
  answer (deleteProduct st id) = Note 200 true "Product removed" ->
  exists d u,
    findById st id = Resolves (Some d)
    /\ deleteOne st d = (Resolves u, state (deleteProduct st id)).
Proof.
  unfold deleteProduct, Crud.deleteProduct.
  destruct (findById st id) as [[d|]|e]; cbn; try discriminate.
  destruct (deleteOne st d) as [[u|e] st'] eqn:D; cbn; [|discriminate].
  intros _. exists d, u. auto.
Qed.

(** X7: [deleteProduct] deletes only the document its lookup found: a
    [deleteOne] is issued only for that document, and when the lookup
    resolves to nothing or throws, the collection is left as it was and the
    answer is not a success. *)
Theorem deleteProduct_deletes_what_it_found (st : St) (id : string) :
  (forall i, In (DeleteOne i) (trace (deleteProduct st id)) ->
             exists d, findById st id = Resolves (Some d) /\ i = _id d)
  /\ ((forall d, findById st id <> Resolves (Some d)) ->
      state (deleteProduct st id) = st
      /\ success_of (answer (deleteProduct st id)) = false)
  /\ (answer (deleteProduct st id) = Note 200 true "Product removed" ->
      exists d u,
        findById st id = Resolves (Some d)
        /\ deleteOne st d = (Resolves u, state (deleteProduct st id))).
Proof.
  unfold deleteProduct, Crud.deleteProduct.
  destruct (findById st id) as [[d|]|e]; cbn.
  - destruct (deleteOne st d) as [[u|e] st'] eqn:D; cbn.
    + split; [|split].
      * intros i [H|[H|[H|[]]]]; try discriminate H. injection H as <-. eauto.
      * intros H. exfalso. apply (H d). reflexivity.
      * intros _. exists d, u. auto.
    + split; [|split].
      * intros i [H|[H|[H|[]]]]; try discriminate H. injection H as <-. eauto.
      * intros H. exfalso. apply (H d). reflexivity.
      * discriminate.
  - split; [|split].
    + intros i [H|[]]. discriminate H.
    + auto.
    + discriminate.
  - split; [|split].
    + intros i [H|[H|[]]]; discriminate H.
    + auto.
    + discriminate.
Qed.

(** X8: deletion is a hard delete.  On a store whose [deleteOne] removes the
    document that was looked up, once [deleteProduct] has answered 200 the
    same identifier is a 404 for [getProduct] and for a second
    [deleteProduct]. *)
Theorem deleted_product_is_gone (st : St) (id : string) :
  (forall s i d u s', findById s i = Resolves (Some d) ->
                      deleteOne s d = (Resolves u, s') ->
                      findById s' i = Resolves None) ->
  answer (deleteProduct st id) = Note 200 true "Product removed" ->
  answer (getProduct (state (deleteProduct st id)) id)
    = Note 404 false "Product not found"
  /\ answer (deleteProduct (state (deleteProduct st id)) id)
     = Note 404 false "Product not found".
Proof.
  intros Hdel Hok.
  destruct (deleteProduct_success st id Hok) as (d & u & Hf & Hd).
  pose proof (Hdel _ _ _ _ _ Hf Hd) as Hgone.
  unfold getProduct, Crud.getProduct. rewrite Hgone. cbn. split; [reflexivity|].
  unfold deleteProduct at 1, Crud.deleteProduct. rewrite Hgone. reflexivity.
Qed.

End Controllers.

(** The in-memory collection honours the deletion contract. *)
Lemma Memory_deleteOne_removes
    (s : Memory.St) (i : string) (d : document) (u : unit) (s' : Memory.St) :
  Memory.findById s i = Resolves (Some d) ->
  Memory.deleteOne s d = (Resolves u, s') ->
  Memory.findById s' i = Resolves None.
Proof.
  unfold Memory.findById, Memory.deleteOne.
  destruct (Memory.valid_id i); [|discriminate].
  intros [= Hf] [= _ <-]. cbn. f_equal.
  apply find_some in Hf. destruct Hf as [_ Hid].
  unfold Memory.has_id in Hid. apply String.eqb_eq in Hid.
  destruct (find (Memory.has_id i) _) as [x|] eqn:F; [|reflexivity].
  apply find_some in F. destruct F as [Hin Hx].
  apply filter_In in Hin. destruct Hin as [_ Hn].
  unfold Memory.has_id in *. rewrite Hid, Hx in Hn. discriminate Hn.
Qed.

Lemma bad_id_is_404_on_read_500_on_write_witness :
  answer (getProduct _ Memory.findById Memory.stocked "42")
    = Note 404 false "Product not found"
  /\ answer (deleteProduct _ Memory.findById Memory.deleteOne Memory.stocked "42")
     = Note 500 false "Server error"
  /\ answer (updateProduct _ Memory.findByIdAndUpdate Memory.conforms Memory.render
               Memory.stocked "42" [("price", Json.Num (Js.of_Z 5))])
     = Note 500 false "Server error".
Proof.
  apply (bad_id_is_404_on_read_500_on_write _ Memory.findById Memory.findByIdAndUpdate
           Memory.deleteOne Memory.conforms Memory.render
           Memory.stocked Memory.stocked "42" [("price", Json.Num (Js.of_Z 5))]
           Memory.cast_error); reflexivity.
Defined.

Lemma duplicate_sku_400_on_create_500_on_update_witness :
  answer (createProduct _ Memory.create Memory.conforms Memory.render
            Memory.two Memory.tee)
    = Note 400 false "SKU already exists"
  /\ answer (updateProduct _ Memory.findByIdAndUpdate Memory.conforms Memory.render
               Memory.two Memory.cap_id [("sku", Json.Str "TEE-1")])
     = Note 500 false "Server error".
Proof.
  apply (duplicate_sku_400_on_create_500_on_update _ Memory.create
           Memory.findByIdAndUpdate Memory.conforms Memory.render
           Memory.two Memory.two Memory.two Memory.cap_id Memory.tee
           [("sku", Json.Str "TEE-1")] Memory.duplicate_key); reflexivity.
Defined.

Lemma replies_are_uniform_witness :
  In (status_of (answer (createProduct _ Memory.create Memory.conforms Memory.render
                           Memory.empty Memory.tee)))
     [200; 201; 400; 404; 500].
Proof.
  apply (replies_are_uniform _ Memory.create Memory.findById Memory.findByIdAndUpdate
           Memory.deleteOne Memory.conforms Memory.render Memory.empty
           Memory.tee_id Memory.tee).
  left. reflexivity.
Defined.

Lemma deleted_product_is_gone_witness :
  answer (getProduct _ Memory.findById
            (state (deleteProduct _ Memory.findById Memory.deleteOne
                      Memory.stocked Memory.tee_id))
            Memory.tee_id)
    = Note 404 false "Product not found"
  /\ answer (deleteProduct _ Memory.findById Memory.deleteOne
               (state (deleteProduct _ Memory.findById Memory.deleteOne
                         Memory.stocked Memory.tee_id))
               Memory.tee_id)
     = Note 404 false "Product not found".
Proof.
  apply (deleted_product_is_gone _ Memory.findById Memory.deleteOne
           Memory.stocked Memory.tee_id Memory_deleteOne_removes).
  reflexivity.
Defined.

End CrudProps.

(* ================================================================== *)
(** ** Body validation: properties *)

Module JoiProps.
Import Joi.

Lemma first_error_None {A : Type} (f : A -> option error) (l : list A) :
  first_error f l = None <-> forall a, In a l -> f a = None.
Proof.
  induction l as [|x t IH]; cbn.
  - split; [intros _ a [] | reflexivity].
  - destruct (f x) eqn:E.
    + split; [discriminate|]. intros H. rewrite <- E. apply H. left. reflexivity.
    + rewrite IH. split.
      * intros H a [<-|Ha]; [exact E | apply H; exact Ha].
      * intros H a Ha. apply H. right. exact Ha.
Qed.

Lemma get_In (o : Json.object) (k : string) (v : Json.t) :
  Json.get o k = Some v -> In (k, v) o.
Proof.
  induction o as [|[k' v'] t IH]; cbn; [discriminate|].
  destruct (String.eqb_spec k k') as [->|_].
  - intros [= ->]. left. reflexivity.
  - intros H. right. apply IH. exact H.
Qed.

Lemma declared_In (keys : list (string * schema)) (k : string) :
  declared keys k = true <-> In k (map fst keys).
Proof.
  unfold declared. rewrite existsb_exists. split.
  - intros (x & Hx & E). apply String.eqb_eq in E. subst. exact Hx.
  - intros H. exists k. split; [exact H | apply String.eqb_refl].
Qed.

Section Validate.

Variable conforms : base -> list rule -> Json.t -> bool.

Lemma check_key_None (body : Json.object) (k : string) (s : schema) :
  check_key conforms body (k, s) = None <-> satisfied conforms body k s.
Proof.
  unfold check_key, satisfied.
  destruct (Json.get body k) as [v|].
  - destruct (conforms (type_of s) (rules_of s) v); split; congruence.
  - destruct (presence_of s); split; congruence.
Qed.

Lemma validate_None (keys : list (string * schema)) (body : Json.object) :
  validate conforms keys body = None
  <-> (forall k s, In (k, s) keys -> satisfied conforms body k s)
      /\ (forall k v, In (k, v) body -> declared keys k = true).
Proof.
  unfold validate.
  destruct (first_error (check_key conforms body) keys) eqn:E.
  - split; [discriminate|]. intros [H _]. exfalso.
    assert (N : first_error (check_key conforms body) keys = None).
    { apply first_error_None. intros [k s] Hin. apply check_key_None, H, Hin. }
    congruence.
  - rewrite first_error_None in E. rewrite first_error_None. split.
    + intros H. split.
      * intros k s Hin. apply check_key_None, E, Hin.
      * intros k v Hin. specialize (H _ Hin). unfold check_member in H. cbn in H.
        destruct (declared keys k); [reflexivity | discriminate H].
    + intros [_ H] [k v] Hin. unfold check_member. cbn.
      rewrite (H k v Hin). reflexivity.
Qed.

Lemma productSchema_refuses (body : Json.object) :
  (exists k, In k ["name"; "description"; "price"; "stock"; "category"]
             /\ Json.get body k = None)
  \/ (exists k v, In (k, v) body /\ declared productSchema k = false) ->
  exists e, validate conforms productSchema body = Some e.
Proof.
  intros H.
  destruct (validate conforms productSchema body) as [e|] eqn:V; [eauto|].
  exfalso. apply validate_None in V. destruct V as [Hk Hm].
  destruct H as [(k & Hin & Hget) | (k & v & Hin & Hd)].
  - assert (R : exists s, In (k, s) productSchema /\ presence_of s = Required).
    { cbn in Hin.
      destruct Hin as [<-|[<-|[<-|[<-|[<-|[]]]]]];
        (eexists; split; [unfold productSchema; cbn; eauto 12 | reflexivity]). }
    destruct R as (s & Hs & Hp). specialize (Hk k s Hs).
    unfold satisfied in Hk. rewrite Hget in Hk. congruence.
  - rewrite (Hm k v Hin) in Hd. discriminate Hd.
Qed.

End Validate.

(** X9: [createProduct] answers 400 without calling the store, and leaves
    the collection as it was, as soon as the body lacks one of name,
    description, price, stock and category, or has a member the schema does
    not declare, such as [isActive] or [_id]. *)
Theorem createProduct_refuses_incomplete_or_extra
    (St : Type) (create : St -> Json.object -> Crud.outcome Crud.document * St)
    (conforms : base -> list rule -> Json.t -> bool) (render : error -> string)
    (st : St) (body : Json.object) :
  (exists k, In k ["name"; "description"; "price"; "stock"; "category"]
             /\ Json.get body k = None)
  \/ (exists k v, In (k, v) body /\ declared productSchema k = false) ->
  exists e,
    Crud.createProduct St create conforms render st body
    = {| Crud.answer := Crud.Note 400 false (render e);
         Crud.state := st; Crud.trace := [] |}.
Proof.
  intros H. destruct (productSchema_refuses conforms body H) as [e He].
  exists e. unfold Crud.createProduct. rewrite He. reflexivity.
Qed.

Lemma createProduct_refuses_incomplete_or_extra_witness :
  exists e,
    Crud.createProduct _ Memory.create Memory.conforms Memory.render Memory.empty
      (("isActive", Json.Bool false) :: Memory.tee)
    = {| Crud.answer := Crud.Note 400 false (Memory.render e);
         Crud.state := Memory.empty; Crud.trace := [] |}.
Proof.
  apply (createProduct_refuses_incomplete_or_extra _ Memory.create Memory.conforms
           Memory.render Memory.empty (("isActive", Json.Bool false) :: Memory.tee)).
  right. exists "isActive", (Json.Bool false). split; [left; reflexivity | reflexivity].
Defined.

(** X10: every body that passes the creation schema passes the update
    schema, so a product can be updated with the body it was created from;
    the converse fails, since the empty body passes the update schema while
    the creation schema reports the missing [name]. *)
Theorem update_accepts_what_create_accepts
    (conforms : base -> list rule -> Json.t -> bool) (body : Json.object) :
  (validate conforms productSchema body = None ->
   validate conforms updateProductSchema body = None)
  /\ validate conforms updateProductSchema [] = None
  /\ validate conforms productSchema [] = Some (any_required "name").
Proof.
  split; [|split; reflexivity].
  intros H. apply validate_None in H. destruct H as [Hk Hm].
  apply validate_None. split.
  - assert (F : Forall (fun e => satisfied conforms body (fst e) (snd e)) productSchema).
    { apply Forall_forall. intros [k s] Hin. apply Hk. exact Hin. }
    unfold productSchema in F.
    repeat match goal with
           | H : Forall _ (_ :: _) |- _ => inversion H; clear H; subst
           end.
    intros k s Hin. unfold updateProductSchema in Hin. cbn [In] in Hin.
    repeat (destruct Hin as [Hin|Hin]); try contradiction;
      inversion Hin; subst; clear Hin;
      unfold satisfied in *; cbn in *.
    all: try (match goal with
              | |- context [Json.get ?b ?key] => destruct (Json.get b key) in *
              end; [assumption | reflexivity]).
    destruct (Json.get body "isActive") as [v|] eqn:G; [|reflexivity].
    apply get_In in G. apply Hm in G. discriminate G.
  - intros k v Hin. specialize (Hm k v Hin).
    apply declared_In in Hm. apply declared_In. cbn in *. tauto.
Qed.

Lemma update_accepts_what_create_accepts_witness :
  validate Memory.conforms updateProductSchema Memory.tee = None.
Proof.
  apply (proj1 (update_accepts_what_create_accepts Memory.conforms Memory.tee)).
  reflexivity.
Defined.

End JoiProps.

(* ================================================================== *)
(** ** The product routes: properties *)

Module RouterProps.
Import Router.

Lemma no_product_effect (evs : list Admin.event) (e : Crud.event) :
  ~ In (ProductStore e) (map UserStore evs).
Proof.
  intros H. apply in_map_iff in H. destruct H as (x & Hx & _). discriminate Hx.
Qed.

Lemma no_user_effect (evs : list Crud.event) (e : Admin.event) :
  ~ In (UserStore e) (map ProductStore evs).
Proof.
  intros H. apply in_map_iff in H. destruct H as (x & Hx & _). discriminate Hx.
Qed.

(** The chain a request is routed to. *)
Lemma lookup_routes (r : request) :
  lookup routes r =
    match verb r, path r with
    | GET, [] => Some ("", [getProducts])
    | GET, [id] => Some (id, [getProduct])
    | POST, [] => Some ("", [auth; isAdmin; createProduct])
    | PUT, [id] => Some (id, [auth; isAdmin; updateProduct])
    | DELETE, [id] => Some (id, [auth; isAdmin; deleteProduct])
    | _, _ => None
    end.
Proof.
  unfold routes, lookup.
  destruct (verb r), (path r) as [|a [|b t]]; reflexivity.
Qed.

Section Serve.

Variable St : Type.
Variable create : St -> Json.object -> Crud.outcome Crud.document * St.
Variable findById : St -> string -> Crud.outcome (option Crud.document).
Variable findByIdAndUpdate :
  St -> string -> Json.object -> Crud.outcome (option Crud.document) * St.
Variable deleteOne : St -> Crud.document -> Crud.outcome unit * St.
Variable conforms : Joi.base -> list Joi.rule -> Json.t -> bool.
Variable render : Joi.error -> string.
Variable listing : St -> Products.Store.

Let serve := serve St create findById findByIdAndUpdate deleteOne conforms render listing.
Let run_chain :=
  run_chain St create findById findByIdAndUpdate deleteOne conforms render listing.

(** A guarded chain: authentication, then the gate, then a product handler. *)
Lemma guarded_chain
    (findUser : string -> Admin.lookup) (authenticate : request -> Admin.outcome)
    (h : handler) (id : string) (r : request) (st : St) :
  h = createProduct \/ h = updateProduct \/ h = deleteProduct ->
  (forall cr, reply (run_chain findUser authenticate [auth; isAdmin; h] id r st [])
              = Product cr ->
     exists c i u,
       authenticate r = Admin.Next c /\ Admin.subject_of c = Some i
       /\ findUser i = Admin.Found u /\ Admin.role u = "admin")
  /\ ((forall cr, reply (run_chain findUser authenticate [auth; isAdmin; h] id r st [])
                  <> Product cr) ->
      state (run_chain findUser authenticate [auth; isAdmin; h] id r st []) = st
      /\ forall e, ~ In (ProductStore e)
                     (effects (run_chain findUser authenticate
                                 [auth; isAdmin; h] id r st []))).
Proof.
  intros Hh. unfold run_chain. cbn [Router.run_chain].
  destruct (authenticate r) as [status b|c] eqn:A.
  - cbn. split; [discriminate|]. intros _. split; [reflexivity | intros e []].
  - cbn [context with_context].
    destruct (Admin.isAdmin findUser c) as [evs [status b|c']] eqn:G.
    + cbn. split; [discriminate|]. intros _. split; [reflexivity|].
      intros e. apply no_product_effect.
    + assert (G' : snd (Admin.isAdmin findUser c) = Admin.Next c')
        by (rewrite G; reflexivity).
      destruct (GateProps.isAdmin_Next _ _ _ G') as (i & u & Hs & Hf & Hr & _).
      split.
      * intros cr _. exists c, i, u. auto.
      * intros H. exfalso.
        destruct Hh as [-> | [-> | ->]]; cbn in H; eapply H; reflexivity.
Qed.

(** X11: the writing routes (POST ['/'], PUT and DELETE ['/:id']) reach
    their product handler only for an admin: whatever the authentication
    middleware does, if the answer comes from the product handler then the
    middleware passed the request on with a Subject whose record has role
    'admin'; and in every other case the collection is untouched and no
    product operation was issued. *)
Theorem writes_require_admin
    (findUser : string -> Admin.lookup) (authenticate : request -> Admin.outcome)
    (r : request) (st : St) :
  verb r <> GET ->
  (forall cr, reply (serve findUser authenticate r st) = Product cr ->
     exists c i u,
       authenticate r = Admin.Next c /\ Admin.subject_of c = Some i
       /\ findUser i = Admin.Found u /\ Admin.role u = "admin")
  /\ ((forall cr, reply (serve findUser authenticate r st) <> Product cr) ->
      state (serve findUser authenticate r st) = st
      /\ forall e, ~ In (ProductStore e) (effects (serve findUser authenticate r st))).
Proof.
  intros Hv. unfold serve, Router.serve. rewrite lookup_routes.
  assert (U : forall x : result St,
             x = {| reply := Unrouted; state := st; effects := [] |} ->
             (forall cr, reply x = Product cr ->
                exists c i u,
                  authenticate r = Admin.Next c /\ Admin.subject_of c = Some i
                  /\ findUser i = Admin.Found u /\ Admin.role u = "admin")
             /\ ((forall cr, reply x <> Product cr) ->
                 state x = st /\ forall e, ~ In (ProductStore e) (effects x))).
  { intros x ->. cbn. split; [discriminate|]. intros _. split; [reflexivity|].
    intros e []. }
  destruct (verb r); [contradiction| | |];
    destruct (path r) as [|a [|b t]]; try (apply U; reflexivity);
    apply guarded_chain; auto.
Qed.

(** X12: the reading routes (GET ['/'] and ['/:id']) are public: their
    result does not depend on the authentication middleware, on the
    credential store or on who is asking; no user is looked up and the
    collection is left as it was. *)
Theorem reads_are_public
    (findUser findUser' : string -> Admin.lookup)
    (authenticate authenticate' : request -> Admin.outcome)
    (r : request) (c : Admin.request) (st : St) :
  verb r = GET ->
  serve findUser authenticate r st = serve findUser' authenticate' (with_context c r) st
  /\ state (serve findUser authenticate r st) = st
  /\ forall e, ~ In (UserStore e) (effects (serve findUser authenticate r st)).
Proof.
  intros Hv. unfold serve, Router.serve. rewrite !lookup_routes.
  cbn [verb path with_context]. rewrite Hv.
  destruct (path r) as [|a [|b t]]; cbn.
  - repeat split. intros e [].
  - unfold finish. cbn. repeat split.
    + unfold Crud.getProduct. destruct (findById st a) as [[d|]|e]; reflexivity.
    + intros e. apply no_user_effect.
  - repeat split. intros e [].
Qed.

End Serve.

Lemma writes_require_admin_witness :
  state (serve _ Memory.create Memory.findById Memory.findByIdAndUpdate Memory.deleteOne
           Memory.conforms Memory.render Memory.no_listing
           Samples.users (Memory.trusting (Some "u2"))
           (Memory.call POST [] Memory.tee) Memory.empty)
    = Memory.empty
  /\ forall e,
       ~ In (ProductStore e)
            (effects (serve _ Memory.create Memory.findById Memory.findByIdAndUpdate
                        Memory.deleteOne Memory.conforms Memory.render Memory.no_listing
                        Samples.users (Memory.trusting (Some "u2"))
                        (Memory.call POST [] Memory.tee) Memory.empty)).
Proof.
  apply (proj2 (writes_require_admin _ Memory.create Memory.findById
                  Memory.findByIdAndUpdate Memory.deleteOne Memory.conforms
                  Memory.render Memory.no_listing
                  Samples.users (Memory.trusting (Some "u2"))
                  (Memory.call POST [] Memory.tee) Memory.empty
                  ltac:(discriminate))).
  intros cr H. discriminate H.
Defined.

Lemma reads_are_public_witness :
  serve _ Memory.create Memory.findById Memory.findByIdAndUpdate Memory.deleteOne
    Memory.conforms Memory.render Memory.no_listing
    Samples.users (Memory.trusting None) (Memory.call GET [Memory.tee_id] []) Memory.two
  = serve _ Memory.create Memory.findById Memory.findByIdAndUpdate Memory.deleteOne
      Memory.conforms Memory.render Memory.no_listing
      Samples.users (Memory.trusting (Some "u1"))
      (with_context (Samples.request_of "u1") (Memory.call GET [Memory.tee_id] []))
      Memory.two.
Proof.
  apply (reads_are_public _ Memory.create Memory.findById Memory.findByIdAndUpdate
           Memory.deleteOne Memory.conforms Memory.render Memory.no_listing
           Samples.users Samples.users (Memory.trusting None)
           (Memory.trusting (Some "u1"))
           (Memory.call GET [Memory.tee_id] []) (Samples.request_of "u1") Memory.two).
  reflexivity.
Defined.

End RouterProps.

(* ================================================================== *)
(** ** Listings page by page *)

Module PagingProps.
Import Js Products Catalog JsProps QueryProps ListingProps Paging.

(** Cutting a list into [n] chunks of [l] and gluing them back. *)
Lemma chunks_concat (l : nat) (n : nat) (xs : list Product.t) :
  (List.length xs <= n * l)%nat ->
  List.concat (map (fun k => firstn l (skipn ((k - 1) * l) xs)) (seq 1 n)) = xs.
Proof.
  revert xs. induction n as [|n IH]; intros xs Hlen.
  - destruct xs; [reflexivity | cbn in Hlen; lia].
  - cbn [seq map List.concat]. cbn [Nat.sub Nat.mul skipn].
    rewrite <- seq_shift, map_map.
    rewrite <- (firstn_skipn l xs) at 2. f_equal.
    rewrite <- (IH (skipn l xs)).
    + f_equal. apply map_ext_in. intros k Hk. apply in_seq in Hk.
      rewrite skipn_skipn. do 2 f_equal.
      destruct k as [|k]; [lia|]. cbn. rewrite Nat.sub_0_r. lia.
    + rewrite length_skipn. cbn in Hlen. lia.
Qed.

Lemma Sorted_skipn {A : Type} (R : A -> A -> Prop) (n : nat) (xs : list A) :
  Sorted R xs -> Sorted R (skipn n xs).
Proof.
  revert xs. induction n as [|n IH]; intros xs H; [exact H|].
  destruct xs as [|x t]; [constructor|]. cbn. apply IH.
  inversion H; assumption.
Qed.

Lemma Sorted_firstn {A : Type} (R : A -> A -> Prop) (n : nat) (xs : list A) :
  Sorted R xs -> Sorted R (firstn n xs).
Proof.
  revert n. induction xs as [|x t IH]; intros n H.
  - rewrite firstn_nil. constructor.
  - destruct n as [|n]; [constructor|]. cbn.
    inversion H as [|? ? Ht Hx]; subst. constructor; [apply IH; exact Ht|].
    destruct t as [|y t], n as [|n]; cbn; constructor.
    inversion Hx; assumption.
Qed.

Lemma Sorted_take {A : Type} (R : Product.t -> Product.t -> Prop)
    (n : nat) (xs : list Product.t) :
  Sorted R xs -> Sorted R (take n xs).
Proof.
  destruct n; cbn [take]; [auto | apply Sorted_firstn].
Qed.

Lemma Sorted_weaken {A : Type} (R R' : A -> A -> Prop) (xs : list A) :
  (forall a b, R a b -> R' a b) -> Sorted R xs -> Sorted R' xs.
Proof.
  intros HR. induction 1 as [|x t Ht IH Hx]; constructor; [exact IH|].
  destruct Hx; constructor. apply HR. assumption.
Qed.

Lemma filter_none {A : Type} (f : A -> bool) (xs : list A) :
  (forall a, f a = false) -> filter f xs = [].
Proof.
  intros H. induction xs as [|x t IH]; cbn; [reflexivity|].
  rewrite H. exact IH.
Qed.

(** A price within both bounds orders the bounds. *)
Lemma le_through (a b : JsNum) (q : Q) :
  le a (JFin q) = true -> le (JFin q) b = true -> le a b = true.
Proof.
  destruct a as [|s| |x], b as [|t| |y]; cbn; try discriminate; auto;
    try (intros -> _; reflexivity);
    rewrite !Qle_bool_iff; apply Qle_trans.
Qed.

Lemma page_count_bound (total : nat) (l : Z) (k : nat) :
  1 <= l -> (k <= page_count total l)%nat ->
  Z.of_nat k * l <= Z.of_nat total + l - 1
  /\ (total <= page_count total l * Z.to_nat l)%nat.
Proof.
  intros Hl Hk. unfold page_count in *.
  pose proof (Z.div_mod (Z.of_nat total + l - 1) l ltac:(lia)) as E.
  pose proof (Z.mod_pos_bound (Z.of_nat total + l - 1) l ltac:(lia)) as B.
  assert (0 <= (Z.of_nat total + l - 1) / l) by (apply Z.div_pos; lia).
  split; nia.
Qed.

Section Served.

Variable text : string -> list string -> bool.
Variable regex : Filter.regex -> option (string -> bool).
Variable db : list Product.t.
Variable S : Store.
Hypothesis served : serves text regex db S.

(** X13: a page beyond the last one is an empty listing that still reports
    the total and the number of pages. *)
Theorem page_past_the_end_is_empty
    (rq : ReqQuery.t) (p l : Z) (sel : list Product.t) :
  ToNumber (page rq) = of_Z p ->
  ToNumber (limit rq) = of_Z l ->
  1 <= p -> 1 <= l -> p * l < 2 ^ 53 ->
  select text regex db (build_query rq) = Some sel ->
  Z.of_nat (List.length sel) <= (p - 1) * l ->
  getProducts S rq
    = Listing []
        {| total := List.length sel;
           page_no := of_Z p;
           pages := of_Z ((Z.of_nat (List.length sel) + l - 1) / l) |}.
Proof.
  intros Hp Hl Hp1 Hl1 Hb Hsel Hpast.
  destruct (served_page text regex db S served rq p l sel Hp Hl Hp1 Hl1 Hb
              ltac:(nia) Hsel) as (sorted & [Hperm _] & ->).
  f_equal. rewrite skipn_all2; [apply firstn_nil|].
  rewrite (Permutation_length Hperm). lia.
Qed.

(** X14: over a store that arranges the matching records the same way on
    every call, the pages of a listing partition it: for a limit of at
    least 1, the data of pages 1 to [ceil(total / limit)], put end to end,
    are exactly the matching records in the resolved order, none missing and
    none twice. *)
Theorem pages_partition_the_listing
    (rq : ReqQuery.t) (l : Z) (sel : list Product.t) (numeral : nat -> string) :
  steady text regex db S ->
  ToNumber (limit rq) = of_Z l ->
  1 <= l ->
  Z.of_nat (List.length sel) + l <= 2 ^ 53 ->
  select text regex db (build_query rq) = Some sel ->
  (forall k, (1 <= k <= page_count (List.length sel) l)%nat ->
             StringToNumber (numeral k) = of_Z (Z.of_nat k)) ->
  exists sorted,
    arranged (sortOption (ReqQuery.sort rq)) sel sorted
    /\ List.concat
         (map (fun k => data_of (getProducts S (with_page (Some (numeral k)) rq)))
            (seq 1 (page_count (List.length sel) l)))
       = sorted.
Proof.
  intros Hsteady Hl Hl1 Hb Hsel Hnum.
  destruct (Hsteady _ (sortOption (ReqQuery.sort rq)) sel
              (sortOption_direction _) Hsel) as (sorted & Harr & Hfind).
  exists sorted. split; [exact Harr|].
  set (n := page_count (List.length sel) l) in *.
  rewrite <- (chunks_concat (Z.to_nat l) n sorted).
  - f_equal. apply map_ext_in. intros k Hk. apply in_seq in Hk.
    destruct (page_count_bound (List.length sel) l k Hl1 ltac:(lia)) as [Bk _].
    destruct (page_arguments (with_page (Some (numeral k)) rq) (Z.of_nat k) l)
      as [Hla Hsk]; try assumption; try lia.
    { cbn. apply Hnum. lia. }
    rewrite (proj1 (getProducts_outcome S (with_page (Some (numeral k)) rq))
               (firstn (Z.to_nat l) (skipn ((k - 1) * Z.to_nat l) sorted))
               (List.length sel)).
    + reflexivity.
    + rewrite Hla, Hsk.
      change (build_query (with_page (Some (numeral k)) rq)) with (build_query rq).
      cbn [ReqQuery.sort with_page].
      rewrite (Hfind _ _ (Z.to_nat l) (Z.to_nat ((Z.of_nat k - 1) * l))
                 (as_count_of_Z l ltac:(lia))
                 (as_count_of_Z ((Z.of_nat k - 1) * l) ltac:(nia))).
      destruct (take_length (Z.to_nat l)
                  (skipn (Z.to_nat ((Z.of_nat k - 1) * l)) sorted) ltac:(lia))
        as [-> _].
      do 3 f_equal. nia.
    + change (build_query (with_page (Some (numeral k)) rq)) with (build_query rq).
      apply (proj2 served). exact Hsel.
  - destruct Harr as [Hperm _]. rewrite (Permutation_length Hperm).
    apply (page_count_bound (List.length sel) l 0 Hl1). lia.
Qed.

(** X15: a listing comes in the resolved order: [sort=price_asc] lists by
    non-decreasing price, [sort=price_desc] by non-increasing price, and a
    [sort] that is none of the four tokens, or absent, lists newest first. *)
Theorem listings_are_ordered
    (rq : ReqQuery.t) (sel : list Product.t) (nl nk : nat) :
  select text regex db (build_query rq) = Some sel ->
  as_count (limit_arg rq) = Some nl ->
  as_count (skip_arg rq) = Some nk ->
  (exists data pg, getProducts S rq = Listing data pg)
  /\ (ReqQuery.sort rq = Some "price_asc" ->
      Sorted (fun a b => (Product.price a <= Product.price b)%Q)
             (data_of (getProducts S rq)))
  /\ (ReqQuery.sort rq = Some "price_desc" ->
      Sorted (fun a b => (Product.price b <= Product.price a)%Q)
             (data_of (getProducts S rq)))
  /\ (ReqQuery.sort rq <> Some "price_asc" -> ReqQuery.sort rq <> Some "price_desc" ->
      ReqQuery.sort rq <> Some "name_asc" -> ReqQuery.sort rq <> Some "name_desc" ->
      Sorted (fun a b => Product.createdAt b <= Product.createdAt a)
             (data_of (getProducts S rq))).
Proof.
  intros Hsel Hl Hk.
  destruct (served_listing text regex db S served rq sel nl nk Hsel Hl Hk)
    as (sorted & [_ Hsort] & ->).
  cbn [data_of]. split; [eauto|].
  assert (W : forall R : Product.t -> Product.t -> Prop,
             (forall a b, in_order (sortOption (ReqQuery.sort rq)) a b = true -> R a b) ->
             Sorted R (take nl (skipn nk sorted))).
  { intros R HR. apply (@Sorted_take Product.t), Sorted_skipn.
    apply (Sorted_weaken _ _ _ HR). exact Hsort. }
  split; [|split].
  - intros Hs. apply W. rewrite Hs. intros a b. unfold in_order. cbn.
    destruct (Product.price a ?= Product.price b)%Q eqn:C; try discriminate; intros _.
    + apply Qeq_alt in C. rewrite C. apply Qle_refl.
    + apply Qlt_alt in C. apply Qlt_le_weak. exact C.
  - intros Hs. apply W. rewrite Hs. intros a b. unfold in_order. cbn.
    destruct (Product.price a ?= Product.price b)%Q eqn:C; try discriminate; intros _.
    + apply Qeq_alt in C. rewrite C. apply Qle_refl.
    + apply Qgt_alt in C. apply Qlt_le_weak. exact C.
  - intros H1 H2 H3 H4. apply W. rewrite (sortOption_default _ H1 H2 H3 H4).
    intros a b. unfold in_order. cbn.
    destruct (Product.createdAt a ?= Product.createdAt b) eqn:C;
      try discriminate; intros _.
    + apply Z.compare_eq_iff in C. lia.
    + apply Z.compare_gt_iff in C. lia.
Qed.

(** X16: the price bounds are not checked against each other: when
    [minPrice] is not below or equal to [maxPrice], a filter the store
    accepts selects nothing, every listing answered reports a total of 0,
    and with a limit and skip the store takes the request is served as an
    empty listing. *)
Theorem inverted_price_range_is_empty
    (rq : ReqQuery.t) (lo hi : string) (sel : list Product.t) :
  ReqQuery.minPrice rq = Some lo -> lo <> "" ->
  ReqQuery.maxPrice rq = Some hi -> hi <> "" ->
  le (StringToNumber lo) (StringToNumber hi) = false ->
  select text regex db (build_query rq) = Some sel ->
  sel = []
  /\ (forall data pg, getProducts S rq = Listing data pg -> total pg = 0%nat)
  /\ (forall nl nk,
        as_count (limit_arg rq) = Some nl ->
        as_count (skip_arg rq) = Some nk ->
        getProducts S rq
        = Listing []
            {| total := 0;
               page_no := ToNumber (page rq);
               pages := ceil (div (of_Z 0) (ToNumber (limit rq))) |}).
Proof.
  intros Hmin Hlo Hmax Hhi Hinv Hsel.
  assert (E : sel = []).
  { destruct sel as [|x t]; [reflexivity|]. exfalso.
    assert (Hx : matches text regex (build_query rq) x = Some true).
    { unfold matches. unfold select in Hsel.
      destruct (plan_of regex (build_query rq)) as [pl|]; [|discriminate Hsel].
      cbn [option_map] in *. injection Hsel as Hsel.
      assert (Hin : In x (filter (accepts text pl) db))
        by (rewrite Hsel; left; reflexivity).
      apply filter_In in Hin. destruct Hin as [_ ->]. reflexivity. }
    apply matches_eligible in Hx. destruct Hx as (_ & _ & _ & H4 & H5 & _).
    rewrite (le_through _ _ _ (H4 lo Hmin Hlo) (H5 hi Hmax Hhi)) in Hinv.
    discriminate Hinv. }
  subst sel. split; [reflexivity|]. split.
  - intros data pg. unfold getProducts.
    destruct (Products.find S _ _ _ _); [|discriminate].
    rewrite (proj2 served _ [] Hsel). intros [= _ <-]. reflexivity.
  - intros nl nk Hl Hk.
    destruct (served_listing text regex db S served rq [] nl nk Hsel Hl Hk)
      as (sorted & [Hperm _] & ->).
    apply Permutation_sym, Permutation_nil in Hperm. subst sorted.
    rewrite skipn_nil. destruct nl; reflexivity.
Qed.

End Served.

(** X17: the total of a listing depends on the filters only: two requests
    with the same category, brand, search and price bounds report the same
    total, whatever their page, limit and sort. *)
Theorem total_ignores_paging_and_sort
    (S : Store) (rq rq' : ReqQuery.t)
    (data data' : list Product.t) (pg pg' : pagination) :
  ReqQuery.category rq = ReqQuery.category rq' ->
  ReqQuery.brand rq = ReqQuery.brand rq' ->
  ReqQuery.search rq = ReqQuery.search rq' ->
  ReqQuery.minPrice rq = ReqQuery.minPrice rq' ->
  ReqQuery.maxPrice rq = ReqQuery.maxPrice rq' ->
  getProducts S rq = Listing data pg ->
  getProducts S rq' = Listing data' pg' ->
  total pg = total pg'.
Proof.
  intros Hc Hb Hs Hlo Hhi.
  assert (Hq : build_query rq = build_query rq').
  { unfold build_query. rewrite Hc, Hb, Hs, Hlo, Hhi. reflexivity. }
  unfold getProducts. rewrite Hq.
  destruct (Products.find S _ _ (limit_arg rq) _); [|discriminate].
  destruct (Products.find S _ _ (limit_arg rq') _); [|discriminate].
  destruct (Products.countDocuments S (build_query rq')); [|discriminate].
  intros [= _ <-] [= _ <-]. reflexivity.
Qed.

Lemma pages_partition_the_listing_witness :
  exists sorted,
    arranged (price, 1) [Samples.shirt; Samples.scarf; Samples.socks] sorted
    /\ List.concat
         (map (fun k => data_of (getProducts (sample Samples.catalog)
                                   (with_page (Some (numeral k)) (Samples.paged "1" "2"))))
            (seq 1 (page_count 3 2)))
       = sorted.
Proof.
  apply (pages_partition_the_listing no_text dots Samples.catalog
           (sample Samples.catalog) (store_serves no_text dots Samples.catalog)
           (Samples.paged "1" "2") 2
           [Samples.shirt; Samples.scarf; Samples.socks] numeral
           (store_steady no_text dots Samples.catalog)
           eq_refl ltac:(lia) ltac:(cbn; lia) eq_refl).
  intros k Hk.
  assert (E : page_count
                (List.length [Samples.shirt; Samples.scarf; Samples.socks]) 2
              = 2%nat) by reflexivity.
  rewrite E in Hk.
  destruct k as [|[|[|k]]]; try reflexivity; lia.
Defined.

Lemma listings_are_ordered_witness :
  Sorted (fun a b => (Product.price a <= Product.price b)%Q)
         (data_of (getProducts (sample Samples.catalog) (Samples.paged "1" "2"))).
Proof.
  apply (proj1 (proj2 (listings_are_ordered no_text dots Samples.catalog
                         (sample Samples.catalog)
                         (store_serves no_text dots Samples.catalog)
                         (Samples.paged "1" "2")
                         [Samples.shirt; Samples.scarf; Samples.socks] 2 0
                         eq_refl eq_refl eq_refl)) eq_refl).
Defined.

Lemma inverted_price_range_is_empty_witness :
  getProducts (sample Samples.catalog) (priced "10" "5")
    = Listing [] {| total := 0; page_no := of_Z 1; pages := of_Z 0 |}.
Proof.
  apply (proj2 (proj2 (inverted_price_range_is_empty no_text dots Samples.catalog
                         (sample Samples.catalog)
                         (store_serves no_text dots Samples.catalog)
                         (priced "10" "5") "10" "5" []
                         eq_refl ltac:(discriminate) eq_refl ltac:(discriminate)
                         eq_refl eq_refl))
           10%nat 0%nat eq_refl eq_refl).
Defined.

Lemma total_ignores_paging_and_sort_witness :
  total {| total := 3; page_no := of_Z 2; pages := of_Z 2 |}
  = total {| total := 3; page_no := of_Z 1; pages := of_Z 1 |}.
Proof.
  apply (total_ignores_paging_and_sort (sample Samples.catalog)
           (Samples.paged "2" "2") ReqQuery.empty
           [Samples.shirt] [Samples.socks; Samples.scarf; Samples.shirt]);
    reflexivity.
Defined.

Lemma page_past_the_end_is_empty_witness :
  getProducts (sample Samples.catalog) (Samples.paged "3" "2")
    = Listing [] {| total := 3; page_no := of_Z 3; pages := of_Z 2 |}.
Proof.
  apply (page_past_the_end_is_empty no_text dots Samples.catalog
           (sample Samples.catalog) (store_serves no_text dots Samples.catalog)
           (Samples.paged "3" "2") 3 2
           [Samples.shirt; Samples.scarf; Samples.socks]);
    try reflexivity; cbn; lia.
Defined.

End PagingProps.
